(** * Slot validation and dialog management of the Lex code hook [Lambda/lf1.py]

    A shallow embedding of the Python module [src/Lambda/lf1.py] and the
    properties of its validation rules, dialog state resolver, intent router
    and entry point.

    Conventions of the embedding.
    - A Python [str] is a [string]; each [ascii] is one code point below 256,
      so [String.length] is Python's [len].  The [str] methods and [int] are
      those of CPython 3.6 and later on such text.
    - A Python [dict] with string keys is a [gmap string _]; [d[k]] on a
      missing key raises [KeyError k].
    - A call that may raise returns a [result]; the exception classes that
      occur in the module are the constructors of [exn].
    - [None] is [None]: an optional slot value is an [option string]. *)

From Stdlib Require Import ZArith String Ascii List Bool Lia.
From stdpp Require Import gmap strings.

Local Open Scope string_scope.
Local Open Scope Z_scope.

(** ** Python runtime: exceptions, strings, integers, dates *)

Module Py.

(** The exception classes raised or caught in the module.  [OtherError] stands
    for any class that is not a subclass of [ValueError], for the library call
    whose failures the module does not enumerate. *)
Inductive exn : Type :=
| KeyError (key : string)
| ValueError
| NameError (name : string)
| OverflowError
| Exception (msg : string)
| OtherError (cls : string).

Inductive result (A : Type) : Type :=
| Ok (a : A)
| Raise (e : exn).
Arguments Ok {A} a.
Arguments Raise {A} e.

Definition bind {A B : Type} (c : result A) (k : A -> result B) : result B :=
  match c with
  | Ok a => k a
  | Raise e => Raise e
  end.

Notation "'let*' x ':=' c 'in' k" := (bind c (fun x => k))
  (at level 10, x name, c at level 100, k at level 200).

(** [d[k]] *)
Definition getitem {V : Type} (k : string) (d : gmap string V) : result V :=
  match d !! k with
  | Some v => Ok v
  | None => Raise (KeyError k)
  end.

(** Values stored in the session attributes: the host sends strings, the
    handler adds an [int]. *)
Inductive pyval : Type :=
| PStr (s : string)
| PInt (z : Z).

(** *** [str] methods *)

Definition code (c : ascii) : Z := Z.of_N (N_of_ascii c).

Definition in_range (lo hi : Z) (c : ascii) : bool :=
  (lo <=? code c) && (code c <=? hi).

(** [str.lower] on one code point below 256: [A-Z] and the upper-case letters
    of the Latin-1 supplement (not the multiplication sign) move up by 32. *)
Definition lower_char (c : ascii) : ascii :=
  if in_range 65 90 c || (in_range 192 222 c && negb (code c =? 215))
  then ascii_of_N (N_of_ascii c + 32)
  else c.

Fixpoint lower (s : string) : string :=
  match s with
  | EmptyString => EmptyString
  | String c s' => String (lower_char c) (lower s')
  end.

(** [s.split(sep)] for a one-character separator. *)
Fixpoint split (sep : ascii) (s : string) : list string :=
  match s with
  | EmptyString => [EmptyString]
  | String c s' =>
      if Ascii.eqb c sep then EmptyString :: split sep s'
      else match split sep s' with
           | p :: ps => String c p :: ps
           | [] => [String c EmptyString]
           end
  end.

(** ['{}'.format(x)] for a slot value: [str(None)] is ['None']. *)
Definition format_slot (x : option string) : string :=
  match x with
  | Some s => s
  | None => "None"
  end.

(** [x in xs] for a list of strings. *)
Definition str_in (x : string) (xs : list string) : bool :=
  existsb (String.eqb x) xs.

(** *** [int(str)] *)

(** White space skipped by [int] around the literal: the ASCII blanks, and
    NEL and the no-break space, which the conversion turns into a blank. *)
Definition is_space (c : ascii) : bool :=
  in_range 9 13 c || (code c =? 32) || (code c =? 133) || (code c =? 160).

Definition digit_val (c : ascii) : option Z :=
  if in_range 48 57 c then Some (code c - 48) else None.

Fixpoint lstrip (s : string) : string :=
  match s with
  | String c s' => if is_space c then lstrip s' else s
  | EmptyString => EmptyString
  end.

(** Drop the trailing white space: a suffix made of blanks only is removed. *)
Fixpoint rstrip (s : string) : string :=
  match s with
  | EmptyString => EmptyString
  | String c s' =>
      match rstrip s' with
      | EmptyString => if is_space c then EmptyString else String c EmptyString
      | t => String c t
      end
  end.

(** Decimal digits with single underscores allowed between two digits.
    [prev] tells whether the previous character was a digit. *)
Fixpoint digits (acc : Z) (prev : bool) (s : string) : option Z :=
  match s with
  | EmptyString => if prev then Some acc else None
  | String c s' =>
      match digit_val c with
      | Some d => digits (10 * acc + d) true s'
      | None =>
          if Ascii.eqb c "_" && prev then digits acc false s' else None
      end
  end.

(** [int(s)]: [None] stands for the [ValueError]. *)
Definition int (s : string) : option Z :=
  match rstrip (lstrip s) with
  | String "+" t => digits 0 false t
  | String "-" t => option_map Z.opp (digits 0 false t)
  | t => digits 0 false t
  end.

(** *** [math.isnan]

    A number is an [int] or the float [nan]; [None] is [nan].  An [int] is
    converted to a float first, which overflows from [2^1024 - 2^970] on. *)
Definition number := option Z.

Definition float_overflow (z : Z) : bool :=
  2 ^ 1024 - 2 ^ 970 <=? Z.abs z.

Definition isnan (x : number) : result bool :=
  match x with
  | None => Ok true
  | Some z => if float_overflow z then Raise OverflowError else Ok false
  end.

(** [x < k] and [x > k] for an [int] bound [k]: every comparison with [nan]
    is false. *)
Definition num_lt (x : number) (k : Z) : bool :=
  match x with Some z => z <? k | None => false end.

Definition num_gt (x : number) (k : Z) : bool :=
  match x with Some z => k <? z | None => false end.

(** *** [datetime.date] *)

Record date : Type := mkdate { year : Z; month : Z; day : Z }.

(** [a <= b] on dates. *)
Definition date_le (a b : date) : bool :=
  (year a <? year b)
  || ((year a =? year b)
      && ((month a <? month b)
          || ((month a =? month b) && (day a <=? day b)))).

Definition is_leap (y : Z) : bool :=
  (y mod 4 =? 0) && (negb (y mod 100 =? 0) || (y mod 400 =? 0)).

Definition days_in_month (y m : Z) : Z :=
  if m =? 2 then (if is_leap y then 29 else 28)
  else if (m =? 4) || (m =? 6) || (m =? 9) || (m =? 11) then 30
  else 31.

(** [datetime.date(y, m, d)] raises [ValueError] outside these bounds. *)
Definition valid_ymd (y m d : Z) : bool :=
  (1 <=? y) && (y <=? 9999) && (1 <=? m) && (m <=? 12)
  && (1 <=? d) && (d <=? days_in_month y m).

(** *** [datetime.datetime.strptime(s, '%Y-%m-%d')]

    The format compiles to the regular expression
    [(\d\d\d\d)-(1[0-2]|0[1-9]|[1-9])-(3[0-1]|[1-2]\d|0[1-9]|[1-9]| [1-9])],
    matched at the start of [s]; the alternatives of a group are tried in
    order, and the text left after the match must be empty. *)

(** One alternative of a group: the number it reads and the rest. *)
Definition alt := string -> option (Z * string).

Definition two (p1 p2 : ascii -> bool) : alt := fun s =>
  match s with
  | String a (String b r) =>
      if p1 a && p2 b
      then match digit_val a, digit_val b with
           | Some x, Some y => Some (10 * x + y, r)
           | _, _ => None
           end
      else None
  | _ => None
  end.

Definition one (p : ascii -> bool) : alt := fun s =>
  match s with
  | String a r =>
      if p a then option_map (fun x => (x, r)) (digit_val a) else None
  | _ => None
  end.

(** [ [1-9]]: a blank, then one digit. *)
Definition blank_one (p : ascii -> bool) : alt := fun s =>
  match s with
  | String " " r => one p r
  | _ => None
  end.

Definition is_char (d : ascii) (c : ascii) : bool := Ascii.eqb c d.

Definition month_alts : list alt :=
  [ two (is_char "1") (in_range 48 50);
    two (is_char "0") (in_range 49 57);
    one (in_range 49 57) ].

Definition day_alts : list alt :=
  [ two (is_char "3") (in_range 48 49);
    two (in_range 49 50) (in_range 48 57);
    two (is_char "0") (in_range 49 57);
    one (in_range 49 57);
    blank_one (in_range 49 57) ].

(** A group followed by the rest of the pattern [k]: the first alternative
    after which [k] matches is the one taken. *)
Fixpoint group {A : Type} (alts : list alt) (k : Z -> string -> option A)
    (s : string) : option A :=
  match alts with
  | [] => None
  | a :: alts' =>
      match a s with
      | Some (v, r) =>
          match k v r with
          | Some x => Some x
          | None => group alts' k s
          end
      | None => group alts' k s
      end
  end.

Definition literal {A : Type} (c : ascii) (k : string -> option A)
    (s : string) : option A :=
  match s with
  | String a r => if Ascii.eqb a c then k r else None
  | EmptyString => None
  end.

Definition year_field {A : Type} (k : Z -> string -> option A)
    (s : string) : option A :=
  match s with
  | String a (String b (String c (String d r))) =>
      match digit_val a, digit_val b, digit_val c, digit_val d with
      | Some w, Some x, Some y, Some z =>
          k (1000 * w + 100 * x + 10 * y + z) r
      | _, _, _, _ => None
      end
  | _ => None
  end.

(** The match of the whole expression: the three numbers and what is left. *)
Definition match_Ymd (s : string) : option (Z * Z * Z * string) :=
  year_field (fun y =>
    literal "-" (group month_alts (fun m =>
      literal "-" (group day_alts (fun d r => Some (y, m, d, r)))))) s.

Definition strptime_Ymd (s : string) : result date :=
  match match_Ymd s with
  | Some (y, m, d, EmptyString) =>
      if valid_ymd y m d then Ok (mkdate y m d) else Raise ValueError
  | _ => Raise ValueError
  end.

End Py.

(** ** The module [lf1.py] *)

Module Lf1.
Import Py.

(** What the handler reads from its host: the current date in the process
    time zone ([datetime.date.today()]) and the outcome of the library call
    [dateutil.parser.parse], which either returns a datetime (its value is
    never used) or raises. *)
Record host : Type := mkhost {
  today : date;
  dateutil_parse : string -> result unit
}.

(** [{'contentType': ..., 'content': ...}] *)
Record message : Type := mkmessage {
  contentType : string;
  content : string
}.

Definition PlainText (text : string) : message :=
  {| contentType := "PlainText"; content := text |}.

(** The event sent by the dialog host. *)
Record intent_request : Type := mkrequest {
  userId : string;
  bot_name : string;
  invocationSource : string;
  sessionAttributes : option (gmap string pyval);
  currentIntent_name : string;
  currentIntent_slots : gmap string (option string)
}.

(** The ['dialogAction'] of a response, by its ['type']. *)
Inductive dialog_action : Type :=
| ElicitSlot (intentName : string) (slots : gmap string (option string))
    (slotToElicit : string) (msg : option message)
| Close (fulfillmentState : string) (msg : message)
| Delegate (slots : gmap string (option string)).

Record response : Type := mkresponse {
  r_sessionAttributes : option (gmap string pyval);
  dialogAction : dialog_action
}.

(** A validation verdict; [vr_message = None] is a dictionary without the
    ['message'] key. *)
Record validation_result : Type := mkverdict {
  isValid : bool;
  violatedSlot : option string;
  vr_message : option message
}.

(** *** Helpers to build responses *)

Definition get_slots (intent_request : intent_request)
  : gmap string (option string) :=
  currentIntent_slots intent_request.

Definition elicit_slot (session_attributes : option (gmap string pyval))
    (intent_name : string) (slots : gmap string (option string))
    (slot_to_elicit : string) (message : option message) : response :=
  {| r_sessionAttributes := session_attributes;
     dialogAction := ElicitSlot intent_name slots slot_to_elicit message |}.

Definition close (session_attributes : option (gmap string pyval))
    (fulfillment_state : string) (message : message) : response :=
  {| r_sessionAttributes := session_attributes;
     dialogAction := Close fulfillment_state message |}.

Definition delegate (session_attributes : option (gmap string pyval))
    (slots : gmap string (option string)) : response :=
  {| r_sessionAttributes := session_attributes;
     dialogAction := Delegate slots |}.

(** *** Helper functions *)

(** [int(n)], or [float('nan')] on [ValueError]. *)
Definition parse_int (n : string) : number := int n.

Definition build_validation_result (is_valid : bool)
    (violated_slot : option string) (message_content : option string)
  : validation_result :=
  match message_content with
  | None =>
      {| isValid := is_valid; violatedSlot := violated_slot;
         vr_message := None |}
  | Some text =>
      {| isValid := is_valid; violatedSlot := violated_slot;
         vr_message := Some (PlainText text) |}
  end.

(** [validation_result['message']] *)
Definition message_item (v : validation_result) : result message :=
  match vr_message v with
  | Some m => Ok m
  | None => Raise (KeyError "message")
  end.

(** Only [ValueError] is caught. *)
Definition isvalid_date (E : host) (date : string) : result bool :=
  match dateutil_parse E date with
  | Ok _ => Ok true
  | Raise ValueError => Ok false
  | Raise e => Raise e
  end.

(** Every [return] of the source is a branch that ends in a verdict; a check
    that does not return falls through to the next one, which is bound to a
    name here ([date_rule] after the flower type, [time_rule] after the date).
    The [hour, minute = ...] unpacking raises [ValueError] unless the split
    has two parts. *)
Definition validate_order_flowers (E : host)
    (flower_type date pickup_time : option string)
  : result validation_result :=
  let flower_types := ["lilies"; "roses"; "tulips"] in
  let time_rule :=
    match pickup_time with
    | Some t =>
        if negb (Nat.eqb (String.length t) 5) then
          Ok (build_validation_result false (Some "PickupTime") None)
        else
          match split ":" t with
          | [hour; minute] =>
              let hour := parse_int hour in
              let minute := parse_int minute in
              let* hour_nan := isnan hour in
              let* any_nan := if hour_nan then Ok true else isnan minute in
              if any_nan then
                Ok (build_validation_result false (Some "PickupTime") None)
              else if num_lt hour 10 || num_gt hour 16 then
                Ok (build_validation_result false (Some "PickupTime")
                      (Some "Our business hours are from ten a m. to five p m. Can you specify a time during this range?"))
              else Ok (build_validation_result true None None)
          | _ => Raise ValueError
          end
    | None => Ok (build_validation_result true None None)
    end in
  let date_rule :=
    match date with
    | Some d =>
        let* parsed := isvalid_date E d in
        if negb parsed then
          Ok (build_validation_result false (Some "PickupDate")
                (Some "I did not understand that, what date would you like to pick the flowers up?"))
        else
          let* when := strptime_Ymd d in
          if date_le when (today E) then
            Ok (build_validation_result false (Some "PickupDate")
                  (Some "You can pick up the flowers from tomorrow onwards.  What day would you like to pick them up?"))
          else time_rule
    | None => time_rule
    end in
  match flower_type with
  | Some f =>
      if negb (str_in (lower f) flower_types) then
        Ok (build_validation_result false (Some "FlowerType")
              (Some ("We do not have " +:+ f
                     +:+ ", would you like a different type of flower?  Our most popular flowers are roses")))
      else date_rule
  | None => date_rule
  end.

(** The branch [if not validation_result['isValid']], the same in both
    handlers: [slots[violatedSlot] = None], then the [ElicitSlot] response,
    whose arguments read the ['message'] of the verdict.  A verdict that is
    not valid always names a slot ([invalid_names_a_slot] below); a verdict
    without one would add the key [None], which this slot mapping does not
    hold, and is given an error of its own. *)
Definition reprompt (intent_request : intent_request)
    (validation_result : validation_result) : result response :=
  match violatedSlot validation_result with
  | Some violated =>
      let slots := <[violated := None]> (get_slots intent_request) in
      let* message := message_item validation_result in
      Ok (elicit_slot (sessionAttributes intent_request)
            (currentIntent_name intent_request) slots violated (Some message))
  | None => Raise (OtherError "slot key None")
  end.

Definition order_flowers (E : host) (intent_request : intent_request)
  : result response :=
  let* flower_type := getitem "FlowerType" (get_slots intent_request) in
  let* date := getitem "PickupDate" (get_slots intent_request) in
  let* pickup_time := getitem "PickupTime" (get_slots intent_request) in
  let source := invocationSource intent_request in
  if String.eqb source "DialogCodeHook" then
    let* validation_result :=
      validate_order_flowers E flower_type date pickup_time in
    if negb (isValid validation_result) then
      reprompt intent_request validation_result
    else
      let output_session_attributes :=
        match sessionAttributes intent_request with
        | Some attrs => attrs
        | None => ∅
        end in
      let output_session_attributes :=
        match flower_type with
        | Some f =>
            <["Price" := PInt (Z.of_nat (String.length f) * 5)]>
              output_session_attributes
        | None => output_session_attributes
        end in
      Ok (delegate (Some output_session_attributes) (get_slots intent_request))
  else
    Ok (close (sessionAttributes intent_request) "Fulfilled"
          (PlainText ("Thanks, your order for " +:+ format_slot flower_type
                      +:+ " has been placed and will be ready for pickup by "
                      +:+ format_slot pickup_time +:+ " on "
                      +:+ format_slot date))).

(** The validator of [MakeDiningSuggestions], written like the one above. *)
Definition validate_make_suggestions
    (cuisine_type location dining_time : option string)
  : result validation_result :=
  let cuisine_types := ["mexican"; "thai"; "chinese"; "italian"; "indian"] in
  let loc_types := ["manhattan"] in
  let time_rule :=
    match dining_time with
    | Some t =>
        if negb (Nat.eqb (String.length t) 5) then
          Ok (build_validation_result false (Some "DiningTime") None)
        else
          match split ":" t with
          | [hour; minute] =>
              let hour := parse_int hour in
              let minute := parse_int minute in
              let* hour_nan := isnan hour in
              let* any_nan := if hour_nan then Ok true else isnan minute in
              if any_nan then
                Ok (build_validation_result false (Some "DiningTime") None)
              else if num_lt hour 17 || num_gt hour 20 then
                Ok (build_validation_result false (Some "DiningTime")
                      (Some "Most dining hours are from five p m. to eight p m. Can you specify a time during this range?"))
              else Ok (build_validation_result true None None)
          | _ => Raise ValueError
          end
    | None => Ok (build_validation_result true None None)
    end in
  let location_rule :=
    match location with
    | Some l =>
        if negb (str_in (lower l) loc_types) then
          Ok (build_validation_result false (Some "Location")
                (Some ("We do not have suggestions for " +:+ l
                       +:+ ". We currently only have suggestions for Manhattan.")))
        else time_rule
    | None => time_rule
    end in
  match cuisine_type with
  | Some c =>
      if negb (str_in (lower c) cuisine_types) then
        Ok (build_validation_result false (Some "Cuisine")
              (Some ("We do not have suggestions for " +:+ c
                     +:+ ", would you like a Cuisine?  Our choices are Mexican, Indian, Thai, Chinese and Italian")))
      else location_rule
  | None => location_rule
  end.

Definition make_suggestions (intent_request : intent_request)
  : result response :=
  let* cuisine_type := getitem "Cuisine" (get_slots intent_request) in
  let* location := getitem "Location" (get_slots intent_request) in
  let* dining_time := getitem "DiningTime" (get_slots intent_request) in
  let* numPeople := getitem "NumPeople" (get_slots intent_request) in
  let* phoneNumber := getitem "PhoneNumber" (get_slots intent_request) in
  let source := invocationSource intent_request in
  if String.eqb source "DialogCodeHook" then
    let* validation_result :=
      validate_make_suggestions cuisine_type location dining_time in
    if negb (isValid validation_result) then
      reprompt intent_request validation_result
    else
      let output_session_attributes :=
        match sessionAttributes intent_request with
        | Some attrs => attrs
        | None => ∅
        end in
      Ok (delegate (Some output_session_attributes) (get_slots intent_request))
  else
    Ok (close (sessionAttributes intent_request) "Fulfilled"
          (PlainText ("Thanks an sms of suggestions for "
                      +:+ format_slot cuisine_type +:+ " food in "
                      +:+ format_slot location +:+ " at "
                      +:+ format_slot dining_time +:+ " for "
                      +:+ format_slot numPeople
                      +:+ " people would be sent to "
                      +:+ format_slot phoneNumber +:+ "."))).

(** *** Intents *)

Definition dispatch (E : host) (intent_request : intent_request)
  : result response :=
  let intent_name := currentIntent_name intent_request in
  if String.eqb intent_name "OrderFlowers" then
    order_flowers E intent_request
  else if String.eqb intent_name "MakeGreeting" then
    Ok (close (sessionAttributes intent_request) "Fulfilled"
          (PlainText "Hey there, how can I help you?"))
  else if String.eqb intent_name "MakeThankYou" then
    Ok (close (sessionAttributes intent_request) "Fulfilled"
          (PlainText "Thanks for coming!"))
  else if String.eqb intent_name "MakeDiningSuggestions" then
    make_suggestions intent_request
  else
    Raise (Exception ("Intent with name " +:+ intent_name +:+ " not supported")).

(** *** Main handler

    Setting the time zone fixes the zone in which [today] is read, and the
    debug line only formats fields of the event.  After a [Close] whose text
    is not one of the two fixed ones the handler splits the text into [arr]
    and then reads the name [tArray], which no statement of the module
    binds. *)
Definition lambda_handler (E : host) (event : intent_request)
  : result response :=
  let* temp := dispatch E event in
  match dialogAction temp with
  | Close _ m =>
      let t := content m in
      if String.eqb t "Hey there, how can I help you?"
         || String.eqb t "Thanks for coming!"
      then Ok temp
      else Raise (NameError "tArray")
  | _ => Ok temp
  end.

End Lf1.

(** ** The module [lfo.py]

    The HTTP-triggered handler: it cuts the chat text out of the request body,
    posts it to the dialog service and wraps the reply in a JSON body. *)

Module Lfo.
Import Py.

(** The double quote character. *)
Definition quote : ascii := "034"%char.

(** [s.startswith(p)] *)
Fixpoint starts_with (p s : string) : bool :=
  match p, s with
  | EmptyString, _ => true
  | String a p', String b s' => Ascii.eqb a b && starts_with p' s'
  | String _ _, EmptyString => false
  end.

(** [s.split(sep)] for a separator that is not empty: the occurrences are
    found from left to right and do not overlap.  [skip] counts the characters
    of a found occurrence that are still to be passed over. *)
Fixpoint split_by (sep : string) (skip : nat) (s : string) : list string :=
  match s with
  | EmptyString => [EmptyString]
  | String c s' =>
      match skip with
      | S k => split_by sep k s'
      | O =>
          if starts_with sep s
          then EmptyString :: split_by sep (String.length sep - 1) s'
          else match split_by sep 0 s' with
               | p :: ps => String c p :: ps
               | [] => [String c EmptyString]
               end
      end
  end.

Definition split_str (sep s : string) : list string := split_by sep 0 s.

(** [l[i]] for a list and an index that is not negative. *)
Definition item {A : Type} (i : nat) (l : list A) : result A :=
  match nth_error l i with
  | Some x => Ok x
  | None => Raise (OtherError "IndexError")
  end.

(** The separator of the first split: the word [text] between two double
    quotes, then a colon. *)
Definition text_key : string := String quote ("text" +:+ String quote ":").

(** [body.split(text_key)[1].split(quote)[1]]: the second part of the split
    at the separator, then the second part of its split at the double
    quote. *)
Definition extract_text (body : string) : result string :=
  let* after := item 1 (split_str text_key body) in
  item 1 (split quote after).

(** *** [json.dumps] of a string, with the default [ensure_ascii]

    The characters from the blank to the tilde stand for themselves, except
    the quote and the backslash; the others are escaped, by a short escape
    when there is one and by [\u00xx] with lower-case digits otherwise. *)
Definition hex_digit (n : Z) : ascii :=
  if n <? 10 then ascii_of_N (Z.to_N (48 + n))
  else ascii_of_N (Z.to_N (87 + n)).

Definition backslash : ascii := "092"%char.

Definition escape_char (c : ascii) : string :=
  let n := code c in
  if n =? 34 then String backslash (String quote EmptyString)
  else if n =? 92 then String backslash (String backslash EmptyString)
  else if n =? 10 then String backslash "n"
  else if n =? 13 then String backslash "r"
  else if n =? 9 then String backslash "t"
  else if n =? 8 then String backslash "b"
  else if n =? 12 then String backslash "f"
  else if in_range 32 126 c then String c EmptyString
  else String backslash
         ("u00" +:+ String (hex_digit (n / 16))
                      (String (hex_digit (n mod 16)) EmptyString)).

Fixpoint escape (s : string) : string :=
  match s with
  | EmptyString => EmptyString
  | String c s' => escape_char c +:+ escape s'
  end.

(** [json.dumps(s)] for a string. *)
Definition dumps_str (s : string) : string :=
  String quote (escape s +:+ String quote EmptyString).

(** [json.dumps] of the reply dictionary: [messages] is a list of one entry
    with [type] and [unstructured], the latter holding [text]; the default
    separators put a blank after each colon and comma. *)
Definition dumps_messages (text : string) : string :=
  "{" +:+ dumps_str "messages" +:+ ": [{" +:+ dumps_str "type" +:+ ": "
  +:+ dumps_str "unstructured" +:+ ", " +:+ dumps_str "unstructured"
  +:+ ": {" +:+ dumps_str "text" +:+ ": " +:+ dumps_str text +:+ "}}]}".

(** *** The handler *)

(** The fields of the gateway event that the handler reads; a request
    without a body has [body = None]. *)
Record api_event : Type := mkevent {
  body : option string;
  accountId : string
}.

(** The dialog service: [post_text botName botAlias userId inputText] is the
    call [client.post_text(...)], which returns the string-valued entries of
    the reply or raises. *)
Record lex_runtime : Type := mklex {
  post_text : string -> string -> string -> string -> result (gmap string string)
}.

Record http_response : Type := mkhttp {
  statusCode : Z;
  headers : gmap string string;
  http_body : string
}.

Definition lambda_handler (L : lex_runtime) (event : api_event)
  : result http_response :=
  let* text :=
    match body event with
    | Some b => Ok b
    | None => Raise (OtherError "AttributeError")
    end in
  let* message := extract_text text in
  let userId := accountId event in
  let* response := post_text L "GetDinnerSuggestions" "prod" userId message in
  let* reply := getitem "message" response in
  Ok {| statusCode := 200;
        headers := {["Access-Control-Allow-Origin" := "*"]};
        http_body := dumps_messages reply |}.

End Lfo.

(** ** Properties *)

Import Py Lf1.

(** *** Vocabulary of the statements *)

(** A concrete host and concrete requests, for the instances below.  The
    parser of [sample_host] accepts what [strptime] accepts and the date
    ["01/02/2030"], which [dateutil] reads as a month, a day and a year. *)
Definition sample_parse (s : string) : result unit :=
  if String.eqb s "01/02/2030" then Ok tt
  else match strptime_Ymd s with
       | Ok _ => Ok tt
       | Raise _ => Raise ValueError
       end.

Definition sample_host : host :=
  {| today := mkdate 2024 2 29; dateutil_parse := sample_parse |}.

Definition flower_slots (flower_type date pickup_time : option string)
  : gmap string (option string) :=
  <["FlowerType" := flower_type]>
    (<["PickupDate" := date]> (<["PickupTime" := pickup_time]> ∅)).

Definition dining_slots (cuisine location dining_time people phone : option string)
  : gmap string (option string) :=
  <["Cuisine" := cuisine]>
    (<["Location" := location]>
       (<["DiningTime" := dining_time]>
          (<["NumPeople" := people]> (<["PhoneNumber" := phone]> ∅)))).

Definition request (source name : string)
    (slots : gmap string (option string)) : intent_request :=
  {| userId := "user"; bot_name := "bot"; invocationSource := source;
     sessionAttributes := None; currentIntent_name := name;
     currentIntent_slots := slots |}.

(** The valid verdict, [build_validation_result(True, None, None)]. *)
Definition valid_verdict : validation_result :=
  build_validation_result true None None.

(** The slots that a handler reads are keys of the request's slot mapping. *)
Definition has_flower_slots (r : intent_request)
    (flower_type date pickup_time : option string) : Prop :=
  get_slots r !! "FlowerType" = Some flower_type
  /\ get_slots r !! "PickupDate" = Some date
  /\ get_slots r !! "PickupTime" = Some pickup_time.

Definition has_dining_slots (r : intent_request)
    (cuisine location dining_time people phone : option string) : Prop :=
  get_slots r !! "Cuisine" = Some cuisine
  /\ get_slots r !! "Location" = Some location
  /\ get_slots r !! "DiningTime" = Some dining_time
  /\ get_slots r !! "NumPeople" = Some people
  /\ get_slots r !! "PhoneNumber" = Some phone.

(** The intent names that [dispatch] knows. *)
Definition registered_intents : list string :=
  ["OrderFlowers"; "MakeGreeting"; "MakeThankYou"; "MakeDiningSuggestions"].

(** An ordered checklist: the verdicts of the checks, in their order.  The
    first check that raises or whose verdict is not valid decides; the checks
    after it are not looked at. *)
Fixpoint first_failure (checks : list (result validation_result))
  : result validation_result :=
  match checks with
  | [] => Ok valid_verdict
  | Raise e :: _ => Raise e
  | Ok v :: rest => if isValid v then first_failure rest else Ok v
  end.

(** The rules of the slots, in the words of the specification. *)

(** An enumerated value is in the allow-list, whatever its case. *)
Definition allowed (values : list string) (x : string) : Prop :=
  In (lower x) values.

Definition flower_ok : string -> Prop := allowed ["lilies"; "roses"; "tulips"].

Definition cuisine_ok : string -> Prop :=
  allowed ["mexican"; "thai"; "chinese"; "italian"; "indian"].

Definition location_ok : string -> Prop := allowed ["manhattan"].

(** A date is read by the date parser, is a calendar date written
    [YYYY-MM-DD], and is strictly later than the current date. *)
Definition date_ok (E : host) (d : string) : Prop :=
  dateutil_parse E d = Ok tt
  /\ exists when, strptime_Ymd d = Ok when /\ date_le when (today E) = false.

(** [t] is [HH:MM]: five characters with one colon between two texts that
    [int] reads as [hour] and [minute]. *)
Definition reads_as_time (t : string) (hour minute : Z) : Prop :=
  String.length t = 5%nat
  /\ exists h m, split ":" t = [h; m] /\ int h = Some hour /\ int m = Some minute.

(** A time whose hour is inside the window [lo..hi]. *)
Definition time_ok (lo hi : Z) (t : string) : Prop :=
  exists hour minute, reads_as_time t hour minute /\ lo <= hour <= hi.

(** A malformed time: not five characters, or an hour or a minute that is not
    a number. *)
Definition malformed_time (t : string) : Prop :=
  String.length t <> 5%nat
  \/ exists h m, split ":" t = [h; m] /\ (int h = None \/ int m = None).

(** A rule binds the values that are present only. *)
Definition if_present (rule : string -> Prop) (value : option string) : Prop :=
  match value with
  | Some x => rule x
  | None => True
  end.

(** The vocabulary of the statements about [lfo.py]. *)

(** No double quote in [s]. *)
Fixpoint quote_free (s : string) : bool :=
  match s with
  | EmptyString => true
  | String c s' => negb (Ascii.eqb c Lfo.quote) && quote_free s'
  end.

(** [sep] occurs in [s ++ tail] at no position inside [s]. *)
Fixpoint no_match_in (sep s tail : string) : bool :=
  match s with
  | EmptyString => true
  | String c s' =>
      negb (Lfo.starts_with sep (s +:+ tail)) && no_match_in sep s' tail
  end.

(** Every character of [s] is between the blank and the tilde. *)
Fixpoint printable (s : string) : bool :=
  match s with
  | EmptyString => true
  | String c s' => in_range 32 126 c && printable s'
  end.

(** No backslash in [s]. *)
Fixpoint backslash_free (s : string) : bool :=
  match s with
  | EmptyString => true
  | String c s' => negb (Ascii.eqb c Lfo.backslash) && backslash_free s'
  end.

(** A dialog service that answers every text with the same reply. *)
Definition echo_service (reply : gmap string string) : Lfo.lex_runtime :=
  {| Lfo.post_text := fun _ _ _ _ => Ok reply |}.

(** The first of the keys, in their order, that the mapping does not hold. *)
Fixpoint first_missing (keys : list string) (slots : gmap string (option string))
  : option string :=
  match keys with
  | [] => None
  | k :: rest =>
      match slots !! k with
      | Some _ => first_missing rest slots
      | None => Some k
      end
  end.

(** A host like [sample_host] whose parser also reads the date
    ["01/02/2020"], a month, a day and a year. *)
Definition past_date_host : host :=
  {| today := mkdate 2024 2 29;
     dateutil_parse := fun s =>
       if String.eqb s "01/02/2020" then Ok tt else sample_parse s |}.

(** The two texts that [lambda_handler] lets through in a [Close]. *)
Definition fixed_text (t : string) : Prop :=
  t = "Hey there, how can I help you?" \/ t = "Thanks for coming!".

(** The verdicts of a time outside the window. *)
Definition pickup_hours_verdict : validation_result :=
  build_validation_result false (Some "PickupTime")
    (Some "Our business hours are from ten a m. to five p m. Can you specify a time during this range?").

Definition dining_hours_verdict : validation_result :=
  build_validation_result false (Some "DiningTime")
    (Some "Most dining hours are from five p m. to eight p m. Can you specify a time during this range?").

(** A five-character time that does not split into two parts at the colon. *)
Definition unsplittable_time (t : option string) : Prop :=
  exists s, t = Some s /\ String.length s = 5%nat
            /\ forall h m, split ":" s <> [h; m].

(** *** The runtime on small inputs *)

Example int_reads_blanks_sign_and_underscore :
  int " 9" = Some 9 /\ int "+07" = Some 7 /\ int "-1" = Some (-1)
  /\ int "1_1" = Some 11 /\ int "30 " = Some 30.
Proof. repeat split. Qed.

Example int_rejects :
  int "" = None /\ int "9a" = None /\ int "1__2" = None /\ int "_1" = None
  /\ int "- 1" = None /\ int "3." = None.
Proof. repeat split. Qed.

Example split_on_colon :
  split ":" "14:99" = ["14"; "99"] /\ split ":" "12345" = ["12345"]
  /\ split ":" "1:2:3" = ["1"; "2"; "3"] /\ split ":" "" = [""].
Proof. repeat split. Qed.

Example strptime_reads :
  strptime_Ymd "2999-01-01" = Ok (mkdate 2999 1 1)
  /\ strptime_Ymd "2999-1-1" = Ok (mkdate 2999 1 1)
  /\ strptime_Ymd "2024-02-29" = Ok (mkdate 2024 2 29).
Proof. repeat split. Qed.

Example strptime_rejects :
  strptime_Ymd "01/02/2030" = Raise ValueError
  /\ strptime_Ymd "2023-02-29" = Raise ValueError
  /\ strptime_Ymd "2999-10-32" = Raise ValueError
  /\ strptime_Ymd "2999-01-01 " = Raise ValueError
  /\ strptime_Ymd "0000-01-01" = Raise ValueError.
Proof. repeat split. Qed.

Example lower_keeps_length_and_folds :
  lower "RoSeS" = "roses" /\ lower "Manhattan" = "manhattan".
Proof. repeat split. Qed.

(** *** The monad and the dictionary access *)

Lemma getitem_Some {V : Type} (k : string) (d : gmap string V) (v : V) :
  d !! k = Some v -> getitem k d = Ok v.
Proof. intros H. unfold getitem. now rewrite H. Qed.

Lemma bind_Ok {A B : Type} (a : A) (k : A -> result B) :
  bind (Ok a) k = k a.
Proof. reflexivity. Qed.

Lemma bind_Raise {A B : Type} (e : exn) (k : A -> result B) :
  bind (Raise e) k = Raise e.
Proof. reflexivity. Qed.

Ltac read_slots :=
  repeat match goal with
  | H : has_flower_slots _ _ _ _ |- _ => destruct H as (? & ? & ?)
  | H : has_dining_slots _ _ _ _ _ _ |- _ => destruct H as (? & ? & ? & ? & ?)
  | H : ?d !! ?k = Some _ |- context [getitem ?k ?d] =>
      rewrite (getitem_Some k d _ H), bind_Ok
  end.

Lemma order_flowers_dialog (E : host) (r : intent_request)
    (f d t : option string) :
  has_flower_slots r f d t ->
  invocationSource r = "DialogCodeHook" ->
  order_flowers E r =
    let* v := validate_order_flowers E f d t in
    if negb (isValid v) then reprompt r v
    else
      let attrs := match sessionAttributes r with Some a => a | None => ∅ end in
      Ok (delegate
            (Some match f with
                  | Some x => <["Price" := PInt (Z.of_nat (String.length x) * 5)]> attrs
                  | None => attrs
                  end)
            (get_slots r)).
Proof.
  intros Hs Hsrc. unfold order_flowers. read_slots.
  rewrite Hsrc. reflexivity.
Qed.

Lemma order_flowers_fulfil (E : host) (r : intent_request)
    (f d t : option string) :
  has_flower_slots r f d t ->
  invocationSource r <> "DialogCodeHook" ->
  order_flowers E r =
    Ok (close (sessionAttributes r) "Fulfilled"
          (PlainText ("Thanks, your order for " +:+ format_slot f
                      +:+ " has been placed and will be ready for pickup by "
                      +:+ format_slot t +:+ " on " +:+ format_slot d))).
Proof.
  intros Hs Hsrc. unfold order_flowers. read_slots.
  apply String.eqb_neq in Hsrc. rewrite Hsrc. reflexivity.
Qed.

Lemma make_suggestions_dialog (r : intent_request)
    (c l t n p : option string) :
  has_dining_slots r c l t n p ->
  invocationSource r = "DialogCodeHook" ->
  make_suggestions r =
    let* v := validate_make_suggestions c l t in
    if negb (isValid v) then reprompt r v
    else
      Ok (delegate
            (Some match sessionAttributes r with Some a => a | None => ∅ end)
            (get_slots r)).
Proof.
  intros Hs Hsrc. unfold make_suggestions. read_slots.
  rewrite Hsrc. reflexivity.
Qed.

Lemma make_suggestions_fulfil (r : intent_request)
    (c l t n p : option string) :
  has_dining_slots r c l t n p ->
  invocationSource r <> "DialogCodeHook" ->
  make_suggestions r =
    Ok (close (sessionAttributes r) "Fulfilled"
          (PlainText ("Thanks an sms of suggestions for "
                      +:+ format_slot c +:+ " food in "
                      +:+ format_slot l +:+ " at "
                      +:+ format_slot t +:+ " for "
                      +:+ format_slot n
                      +:+ " people would be sent to "
                      +:+ format_slot p +:+ "."))).
Proof.
  intros Hs Hsrc. unfold make_suggestions. read_slots.
  apply String.eqb_neq in Hsrc. rewrite Hsrc. reflexivity.
Qed.

Lemma flower_slots_has (f d t : option string) (source name : string) :
  has_flower_slots (request source name (flower_slots f d t)) f d t.
Proof. unfold has_flower_slots, flower_slots; simpl. now simplify_map_eq. Qed.

Lemma dining_slots_has (c l t n p : option string) (source name : string) :
  has_dining_slots (request source name (dining_slots c l t n p)) c l t n p.
Proof. unfold has_dining_slots, dining_slots; simpl. now simplify_map_eq. Qed.


(** *** Strings and integers *)

Lemma lstrip_length (s : string) :
  (String.length (lstrip s) <= String.length s)%nat.
Proof.
  induction s as [| c s IH]; simpl; [lia |].
  destruct (is_space c); simpl; lia.
Qed.

Lemma rstrip_length (s : string) :
  (String.length (rstrip s) <= String.length s)%nat.
Proof.
  induction s as [| c s IH]; simpl; [lia |].
  destruct (rstrip s); [destruct (is_space c) |]; simpl in *; lia.
Qed.

Lemma digit_val_bound (c : ascii) (d : Z) :
  digit_val c = Some d -> 0 <= d <= 9.
Proof.
  unfold digit_val, in_range. intros H.
  destruct (48 <=? code c) eqn:Hlo; destruct (code c <=? 57) eqn:Hhi;
    simpl in H; try discriminate.
  injection H as <-. lia.
Qed.

Lemma digits_bound (s : string) :
  forall acc prev v,
    0 <= acc -> digits acc prev s = Some v ->
    0 <= v < (acc + 1) * 10 ^ Z.of_nat (String.length s).
Proof.
  induction s as [| c s IH]; intros acc prev v Hacc H; simpl in H.
  - destruct prev; [| discriminate]. injection H as <-. simpl. lia.
  - replace (Z.of_nat (String.length (String c s)))
      with (Z.succ (Z.of_nat (String.length s))) by (simpl; lia).
    rewrite Z.pow_succ_r by lia.
    assert (Hp : 0 < 10 ^ Z.of_nat (String.length s))
      by (apply Z.pow_pos_nonneg; lia).
    destruct (digit_val c) as [d |] eqn:Hd.
    + apply digit_val_bound in Hd.
      apply IH in H; [| lia]. nia.
    + destruct (Ascii.eqb c "_" && prev); [| discriminate].
      apply IH in H; [| lia]. nia.
Qed.

Lemma int_bound (s : string) (v : Z) :
  int s = Some v -> Z.abs v < 10 ^ Z.of_nat (String.length s).
Proof.
  unfold int. intros H.
  pose proof (lstrip_length s) as Hl.
  pose proof (rstrip_length (lstrip s)) as Hr.
  assert (Hmono : forall n : nat, (n <= String.length s)%nat ->
            10 ^ Z.of_nat n <= 10 ^ Z.of_nat (String.length s))
    by (intros n Hn; apply Z.pow_le_mono_r; lia).
  assert (Hd : forall t w, digits 0 false t = Some w ->
            (String.length t <= String.length s)%nat ->
            0 <= w < 10 ^ Z.of_nat (String.length s)).
  { intros t w Hw Ht. apply digits_bound in Hw; [| lia].
    specialize (Hmono _ Ht). lia. }
  destruct (rstrip (lstrip s)) as [| c t] eqn:Hs; [discriminate |].
  simpl in Hr.
  assert (Hwhole : forall w, digits 0 false (String c t) = Some w ->
            Z.abs w < 10 ^ Z.of_nat (String.length s)).
  { intros w Hw. apply Hd in Hw; [lia | simpl; lia]. }
  assert (Hsign : forall w, digits 0 false t = Some w ->
            0 <= w < 10 ^ Z.of_nat (String.length s)).
  { intros w Hw. apply Hd in Hw; [lia | lia]. }
  destruct c as [[] [] [] [] [] [] [] []]; try (now apply Hwhole).
  - specialize (Hsign v H). lia.
  - destruct (digits 0 false t) as [w |] eqn:Hw; [| discriminate].
    injection H as <-. specialize (Hsign w eq_refl). lia.
Qed.

Lemma split_parts_length (sep : ascii) (s : string) :
  Forall (fun p => (String.length p <= String.length s)%nat) (split sep s).
Proof.
  induction s as [| c s IH]; simpl.
  - constructor; [simpl; lia | constructor].
  - destruct (Ascii.eqb c sep).
    + constructor; [simpl; lia |].
      eapply Forall_impl; [exact IH |]. simpl. intros; lia.
    + destruct (split sep s) as [| p ps].
      * constructor; [simpl; lia | constructor].
      * inversion IH as [| ? ? Hp Hps]; subst.
        constructor; [simpl; lia |].
        eapply Forall_impl; [exact Hps |]. simpl. intros; lia.
Qed.

(** An [int] read from a string of at most five characters converts to a
    float. *)
Lemma short_int_is_a_float (s : string) (v : Z) :
  (String.length s <= 5)%nat -> int s = Some v -> float_overflow v = false.
Proof.
  intros Hlen Hv. apply int_bound in Hv.
  assert (H5 : 10 ^ Z.of_nat (String.length s) <= 10 ^ 5)
    by (apply Z.pow_le_mono_r; lia).
  unfold float_overflow. apply Z.leb_gt.
  assert (Hbig : 10 ^ 5 < 2 ^ 1024 - 2 ^ 970) by reflexivity.
  lia.
Qed.

Lemma isnan_short (s : string) :
  (String.length s <= 5)%nat ->
  isnan (parse_int s) = Ok (match int s with Some _ => false | None => true end).
Proof.
  intros Hlen. unfold parse_int, isnan.
  destruct (int s) as [v |] eqn:Hv; [| reflexivity].
  now rewrite (short_int_is_a_float s v Hlen Hv).
Qed.

Lemma split_two_short (t h m : string) :
  String.length t = 5%nat -> split ":" t = [h; m] ->
  (String.length h <= 5)%nat /\ (String.length m <= 5)%nat.
Proof.
  intros Hlen Hsplit.
  pose proof (split_parts_length ":" t) as Hall.
  rewrite Hsplit, Hlen in Hall.
  inversion Hall as [| ? ? Hh Hrest]; subst.
  inversion Hrest as [| ? ? Hm _]; subst.
  now split.
Qed.

(** *** The validators as ordered checklists *)

Ltac split_cases :=
  repeat match goal with
  | |- context [match ?x with _ => _ end] =>
      match x with
      | context [match _ with _ => _ end] => fail 1
      | _ => destruct x eqn:?; simpl; try reflexivity; try discriminate
      end
  end.

(** The check of one slot is the validator run on that slot alone. *)
Lemma order_flowers_checklist (E : host) (f d t : option string) :
  validate_order_flowers E f d t =
    first_failure [ validate_order_flowers E f None None;
                    validate_order_flowers E None d None;
                    validate_order_flowers E None None t ].
Proof.
  unfold validate_order_flowers, isvalid_date, bind.
  destruct f as [f |], d as [d |], t as [t |]; simpl; split_cases; reflexivity.
Qed.

Lemma make_suggestions_checklist (c l t : option string) :
  validate_make_suggestions c l t =
    first_failure [ validate_make_suggestions c None None;
                    validate_make_suggestions None l None;
                    validate_make_suggestions None None t ].
Proof.
  unfold validate_make_suggestions, bind.
  destruct c as [c |], l as [l |], t as [t |]; simpl; split_cases; reflexivity.
Qed.

Lemma str_in_In (x : string) (xs : list string) :
  str_in x xs = true <-> In x xs.
Proof.
  unfold str_in. rewrite existsb_exists. split.
  - intros (y & Hy & Heq). apply String.eqb_eq in Heq. now subst.
  - intros H. exists x. split; [assumption | apply String.eqb_refl].
Qed.

Lemma str_in_not_In (x : string) (xs : list string) :
  str_in x xs = false <-> ~ In x xs.
Proof.
  rewrite <- str_in_In. destruct (str_in x xs); split; congruence.
Qed.

(** **** One slot at a time *)

Lemma flower_alone (E : host) (f : string) :
  validate_order_flowers E (Some f) None None =
    if str_in (lower f) ["lilies"; "roses"; "tulips"] then Ok valid_verdict
    else Ok (build_validation_result false (Some "FlowerType")
               (Some ("We do not have " +:+ f
                      +:+ ", would you like a different type of flower?  Our most popular flowers are roses"))).
Proof.
  unfold validate_order_flowers.
  now destruct (str_in (lower f) ["lilies"; "roses"; "tulips"]).
Qed.

Lemma cuisine_alone (c : string) :
  validate_make_suggestions (Some c) None None =
    if str_in (lower c) ["mexican"; "thai"; "chinese"; "italian"; "indian"]
    then Ok valid_verdict
    else Ok (build_validation_result false (Some "Cuisine")
               (Some ("We do not have suggestions for " +:+ c
                      +:+ ", would you like a Cuisine?  Our choices are Mexican, Indian, Thai, Chinese and Italian"))).
Proof.
  unfold validate_make_suggestions.
  now destruct (str_in (lower c) _).
Qed.

Lemma location_alone (l : string) :
  validate_make_suggestions None (Some l) None =
    if str_in (lower l) ["manhattan"] then Ok valid_verdict
    else Ok (build_validation_result false (Some "Location")
               (Some ("We do not have suggestions for " +:+ l
                      +:+ ". We currently only have suggestions for Manhattan."))).
Proof.
  unfold validate_make_suggestions.
  now destruct (str_in (lower l) _).
Qed.

Lemma date_alone (E : host) (d : string) :
  validate_order_flowers E None (Some d) None =
    match dateutil_parse E d with
    | Ok _ =>
        match strptime_Ymd d with
        | Ok when =>
            if date_le when (today E) then
              Ok (build_validation_result false (Some "PickupDate")
                    (Some "You can pick up the flowers from tomorrow onwards.  What day would you like to pick them up?"))
            else Ok valid_verdict
        | Raise e => Raise e
        end
    | Raise ValueError =>
        Ok (build_validation_result false (Some "PickupDate")
              (Some "I did not understand that, what date would you like to pick the flowers up?"))
    | Raise e => Raise e
    end.
Proof.
  unfold validate_order_flowers, isvalid_date, bind.
  destruct (dateutil_parse E d) as [u | []]; reflexivity.
Qed.

Lemma pickup_time_alone (E : host) (t : string) (hour minute : Z) :
  reads_as_time t hour minute ->
  validate_order_flowers E None None (Some t) =
    if (hour <? 10) || (16 <? hour) then
      Ok (build_validation_result false (Some "PickupTime")
            (Some "Our business hours are from ten a m. to five p m. Can you specify a time during this range?"))
    else Ok valid_verdict.
Proof.
  intros (Hlen & h & m & Hsplit & Hh & Hm).
  destruct (split_two_short t h m Hlen Hsplit) as [Hhl Hml].
  unfold validate_order_flowers. rewrite Hlen, Hsplit. cbn [Nat.eqb negb].
  rewrite (isnan_short h Hhl), (isnan_short m Hml), Hh, Hm.
  unfold parse_int. rewrite Hh. cbn [bind num_lt num_gt].
  now destruct ((hour <? 10) || (16 <? hour)).
Qed.

Lemma dining_time_alone (t : string) (hour minute : Z) :
  reads_as_time t hour minute ->
  validate_make_suggestions None None (Some t) =
    if (hour <? 17) || (20 <? hour) then
      Ok (build_validation_result false (Some "DiningTime")
            (Some "Most dining hours are from five p m. to eight p m. Can you specify a time during this range?"))
    else Ok valid_verdict.
Proof.
  intros (Hlen & h & m & Hsplit & Hh & Hm).
  destruct (split_two_short t h m Hlen Hsplit) as [Hhl Hml].
  unfold validate_make_suggestions. rewrite Hlen, Hsplit. cbn [Nat.eqb negb].
  rewrite (isnan_short h Hhl), (isnan_short m Hml), Hh, Hm.
  unfold parse_int. rewrite Hh. cbn [bind num_lt num_gt].
  now destruct ((hour <? 17) || (20 <? hour)).
Qed.

Lemma pickup_time_malformed (E : host) (t : string) :
  malformed_time t ->
  validate_order_flowers E None None (Some t) =
    Ok (build_validation_result false (Some "PickupTime") None).
Proof.
  intros [Hlen | (h & m & Hsplit & Hnan)]; unfold validate_order_flowers.
  - apply Nat.eqb_neq in Hlen. now rewrite Hlen.
  - destruct (Nat.eqb (String.length t) 5) eqn:Hlen; [| reflexivity].
    apply Nat.eqb_eq in Hlen.
    destruct (split_two_short t h m Hlen Hsplit) as [Hhl Hml].
    rewrite Hsplit. cbn [negb].
    rewrite (isnan_short h Hhl), (isnan_short m Hml).
    destruct (int h), (int m), Hnan; try discriminate; reflexivity.
Qed.

Lemma dining_time_malformed (t : string) :
  malformed_time t ->
  validate_make_suggestions None None (Some t) =
    Ok (build_validation_result false (Some "DiningTime") None).
Proof.
  intros [Hlen | (h & m & Hsplit & Hnan)]; unfold validate_make_suggestions.
  - apply Nat.eqb_neq in Hlen. now rewrite Hlen.
  - destruct (Nat.eqb (String.length t) 5) eqn:Hlen; [| reflexivity].
    apply Nat.eqb_eq in Hlen.
    destruct (split_two_short t h m Hlen Hsplit) as [Hhl Hml].
    rewrite Hsplit. cbn [negb].
    rewrite (isnan_short h Hhl), (isnan_short m Hml).
    destruct (int h), (int m), Hnan; try discriminate; reflexivity.
Qed.

Lemma absent_slots_valid (E : host) :
  validate_order_flowers E None None None = Ok valid_verdict
  /\ validate_make_suggestions None None None = Ok valid_verdict.
Proof. split; reflexivity. Qed.

(** **** Which slot a failing check names *)

Lemma flower_check_names (E : host) (f : option string) (v : validation_result) :
  validate_order_flowers E f None None = Ok v -> isValid v = false ->
  violatedSlot v = Some "FlowerType".
Proof.
  destruct f as [f |]; [rewrite flower_alone | cbn];
    split_cases; intros [= <-]; now cbn.
Qed.

Lemma date_check_names (E : host) (d : option string) (v : validation_result) :
  validate_order_flowers E None d None = Ok v -> isValid v = false ->
  violatedSlot v = Some "PickupDate".
Proof.
  destruct d as [d |]; [rewrite date_alone | cbn];
    split_cases; intros [= <-]; now cbn.
Qed.

Lemma pickup_time_check_names (E : host) (t : option string)
    (v : validation_result) :
  validate_order_flowers E None None t = Ok v -> isValid v = false ->
  violatedSlot v = Some "PickupTime".
Proof.
  unfold validate_order_flowers, bind.
  destruct t as [t |]; cbn; split_cases; intros [= <-]; now cbn.
Qed.

Lemma cuisine_check_names (c : option string) (v : validation_result) :
  validate_make_suggestions c None None = Ok v -> isValid v = false ->
  violatedSlot v = Some "Cuisine".
Proof.
  destruct c as [c |]; [rewrite cuisine_alone | cbn];
    split_cases; intros [= <-]; now cbn.
Qed.

Lemma location_check_names (l : option string) (v : validation_result) :
  validate_make_suggestions None l None = Ok v -> isValid v = false ->
  violatedSlot v = Some "Location".
Proof.
  destruct l as [l |]; [rewrite location_alone | cbn];
    split_cases; intros [= <-]; now cbn.
Qed.

Lemma dining_time_check_names (t : option string) (v : validation_result) :
  validate_make_suggestions None None t = Ok v -> isValid v = false ->
  violatedSlot v = Some "DiningTime".
Proof.
  unfold validate_make_suggestions, bind.
  destruct t as [t |]; cbn; split_cases; intros [= <-]; now cbn.
Qed.

(** A verdict that is not valid names a slot. *)
Lemma first_failure_names (checks : list (result validation_result))
    (v : validation_result) :
  Forall (fun c => forall w, c = Ok w -> isValid w = false ->
                             exists slot, violatedSlot w = Some slot) checks ->
  first_failure checks = Ok v -> isValid v = false ->
  exists slot, violatedSlot v = Some slot.
Proof.
  induction 1 as [| c rest Hc _ IH]; simpl.
  - intros [= <-]. discriminate.
  - destruct c as [w | e]; [| discriminate].
    destruct (isValid w) eqn:Hw; [exact IH |].
    intros [= <-] _. now apply Hc.
Qed.

Lemma invalid_names_a_slot (E : host) (v : validation_result) :
  (forall f d t, validate_order_flowers E f d t = Ok v -> isValid v = false ->
                 exists slot, violatedSlot v = Some slot)
  /\ (forall c l t, validate_make_suggestions c l t = Ok v -> isValid v = false ->
                    exists slot, violatedSlot v = Some slot).
Proof.
  split.
  - intros f d t. rewrite order_flowers_checklist.
    apply first_failure_names. repeat constructor; intros w Hw Hi.
    + eexists. exact (flower_check_names E f w Hw Hi).
    + eexists. exact (date_check_names E d w Hw Hi).
    + eexists. exact (pickup_time_check_names E t w Hw Hi).
  - intros c l t. rewrite make_suggestions_checklist.
    apply first_failure_names. repeat constructor; intros w Hw Hi.
    + eexists. exact (cuisine_check_names c w Hw Hi).
    + eexists. exact (location_check_names l w Hw Hi).
    + eexists. exact (dining_time_check_names t w Hw Hi).
Qed.

Lemma first_failure_all_valid (checks : list (result validation_result)) :
  Forall (fun c => c = Ok valid_verdict) checks ->
  first_failure checks = Ok valid_verdict.
Proof.
  induction 1 as [| c rest Hc _ IH]; simpl; [reflexivity |].
  now rewrite Hc.
Qed.

Lemma flower_passes (E : host) (f : option string) :
  if_present flower_ok f ->
  validate_order_flowers E f None None = Ok valid_verdict.
Proof.
  destruct f as [f |]; [| reflexivity]. intros H.
  rewrite flower_alone. apply str_in_In in H. now rewrite H.
Qed.

Lemma date_passes (E : host) (d : option string) :
  if_present (date_ok E) d ->
  validate_order_flowers E None d None = Ok valid_verdict.
Proof.
  destruct d as [d |]; [| reflexivity]. intros (Hp & when & Hs & Hlater).
  now rewrite date_alone, Hp, Hs, Hlater.
Qed.

Lemma pickup_time_passes (E : host) (t : option string) :
  if_present (time_ok 10 16) t ->
  validate_order_flowers E None None t = Ok valid_verdict.
Proof.
  destruct t as [t |]; [| reflexivity]. intros (hour & minute & Hr & Hw).
  rewrite (pickup_time_alone E t hour minute Hr).
  replace (hour <? 10) with false by (symmetry; apply Z.ltb_ge; lia).
  replace (16 <? hour) with false by (symmetry; apply Z.ltb_ge; lia).
  reflexivity.
Qed.

Lemma cuisine_passes (c : option string) :
  if_present cuisine_ok c ->
  validate_make_suggestions c None None = Ok valid_verdict.
Proof.
  destruct c as [c |]; [| reflexivity]. intros H.
  rewrite cuisine_alone. apply str_in_In in H. now rewrite H.
Qed.

Lemma location_passes (l : option string) :
  if_present location_ok l ->
  validate_make_suggestions None l None = Ok valid_verdict.
Proof.
  destruct l as [l |]; [| reflexivity]. intros H.
  rewrite location_alone. apply str_in_In in H. now rewrite H.
Qed.

Lemma dining_time_passes (t : option string) :
  if_present (time_ok 17 20) t ->
  validate_make_suggestions None None t = Ok valid_verdict.
Proof.
  destruct t as [t |]; [| reflexivity]. intros (hour & minute & Hr & Hw).
  rewrite (dining_time_alone t hour minute Hr).
  replace (hour <? 17) with false by (symmetry; apply Z.ltb_ge; lia).
  replace (20 <? hour) with false by (symmetry; apply Z.ltb_ge; lia).
  reflexivity.
Qed.

(** *** The validation rules *)

Lemma order_flowers_passes (E : host) (f d t : option string) :
  if_present flower_ok f -> if_present (date_ok E) d ->
  if_present (time_ok 10 16) t ->
  validate_order_flowers E f d t = Ok valid_verdict.
Proof.
  intros Hf Hd Ht. rewrite order_flowers_checklist.
  apply first_failure_all_valid. repeat constructor.
  - now apply flower_passes.
  - now apply date_passes.
  - now apply pickup_time_passes.
Qed.

Lemma make_suggestions_passes (c l t : option string) :
  if_present cuisine_ok c -> if_present location_ok l ->
  if_present (time_ok 17 20) t ->
  validate_make_suggestions c l t = Ok valid_verdict.
Proof.
  intros Hc Hl Ht. rewrite make_suggestions_checklist.
  apply first_failure_all_valid. repeat constructor.
  - now apply cuisine_passes.
  - now apply location_passes.
  - now apply dining_time_passes.
Qed.

(** X17.  What the validators accept.  The verdict is the valid one,
    whichever slots are absent, when every value that is present passes: an
    enumerated value in its allow-list in any case of letters, a date that
    the parser reads, that is a calendar date written [YYYY-MM-DD] and that
    is strictly later than the current date, and a five-character time with
    an integer hour inside the window and an integer minute.  With no slot
    present at all the verdict is valid.  A later date in another format is
    not among these. *)
Theorem present_values_pass (E : host) :
  (forall f d t,
     if_present flower_ok f -> if_present (date_ok E) d ->
     if_present (time_ok 10 16) t ->
     validate_order_flowers E f d t = Ok valid_verdict)
  /\ (forall c l t,
        if_present cuisine_ok c -> if_present location_ok l ->
        if_present (time_ok 17 20) t ->
        validate_make_suggestions c l t = Ok valid_verdict)
  /\ validate_order_flowers E None None None = Ok valid_verdict
  /\ validate_make_suggestions None None None = Ok valid_verdict.
Proof.
  split; [exact (order_flowers_passes E) |].
  split; [exact make_suggestions_passes |].
  exact (absent_slots_valid E).
Qed.

Lemma sample_time_reads (a b c d : ascii) (hour minute : Z) :
  int (String a (String b EmptyString)) = Some hour ->
  int (String c (String d EmptyString)) = Some minute ->
  Ascii.eqb a ":" = false -> Ascii.eqb b ":" = false ->
  Ascii.eqb c ":" = false -> Ascii.eqb d ":" = false ->
  reads_as_time
    (String a (String b (String ":" (String c (String d EmptyString)))))
    hour minute.
Proof.
  intros Hh Hm Ha Hb Hc Hd. split; [reflexivity |].
  exists (String a (String b EmptyString)), (String c (String d EmptyString)).
  split; [| now split].
  simpl. now rewrite Ha, Hb, Hc, Hd.
Qed.

Lemma present_values_pass_witness :
  validate_order_flowers sample_host (Some "Roses") None (Some "10:30")
  = Ok valid_verdict
  /\ validate_make_suggestions (Some "THAI") (Some "Manhattan") None
     = Ok valid_verdict.
Proof.
  split.
  - apply (proj1 (present_values_pass sample_host)
             (Some "Roses") None (Some "10:30")).
    + simpl. unfold flower_ok, allowed. simpl. tauto.
    + exact I.
    + exists 10, 30. split; [| lia].
      now apply sample_time_reads.
  - apply (proj1 (proj2 (present_values_pass sample_host))
             (Some "THAI") (Some "Manhattan") None).
    + simpl. unfold cuisine_ok, allowed. simpl. tauto.
    + simpl. unfold location_ok, allowed. simpl. tauto.
    + exact I.
Defined.

(** C10.  The minute of a time is read but never compared with anything: a
    five-character time whose two parts are integers and whose hour is inside
    the window of the intent passes the time check, whatever the minute is. *)
Theorem minute_is_not_range_checked (E : host) (t : string) (hour minute : Z) :
  reads_as_time t hour minute ->
  (10 <= hour <= 16 ->
     validate_order_flowers E None None (Some t) = Ok valid_verdict
     /\ forall f d,
          validate_order_flowers E f d (Some t) =
          validate_order_flowers E f d None)
  /\ (17 <= hour <= 20 ->
        validate_make_suggestions None None (Some t) = Ok valid_verdict
        /\ forall c l,
             validate_make_suggestions c l (Some t) =
             validate_make_suggestions c l None).
Proof.
  intros Hr. split; intros Hw.
  - assert (Ht : validate_order_flowers E None None (Some t) = Ok valid_verdict).
    { apply pickup_time_passes. now exists hour, minute. }
    split; [exact Ht |]. intros f d.
    rewrite (order_flowers_checklist E f d (Some t)),
            (order_flowers_checklist E f d None), Ht.
    reflexivity.
  - assert (Ht : validate_make_suggestions None None (Some t) = Ok valid_verdict).
    { apply dining_time_passes. now exists hour, minute. }
    split; [exact Ht |]. intros c l.
    rewrite (make_suggestions_checklist c l (Some t)),
            (make_suggestions_checklist c l None), Ht.
    reflexivity.
Qed.

Lemma minute_is_not_range_checked_witness :
  validate_order_flowers sample_host None None (Some "14:99") = Ok valid_verdict
  /\ validate_make_suggestions None None (Some "18:99") = Ok valid_verdict.
Proof.
  split.
  - apply (proj1 (minute_is_not_range_checked sample_host "14:99" 14 99
                    (sample_time_reads "1" "4" "9" "9" 14 99
                       eq_refl eq_refl eq_refl eq_refl eq_refl eq_refl))).
    lia.
  - apply (proj2 (minute_is_not_range_checked sample_host "18:99" 18 99
                    (sample_time_reads "1" "8" "9" "9" 18 99
                       eq_refl eq_refl eq_refl eq_refl eq_refl eq_refl))).
    lia.
Defined.

(** *** Dialog turns *)

(** C6.  On a dialog turn whose slots pass validation and whose flower type
    is present, [order_flowers] returns [Delegate] with the slot mapping as it
    came and with the session attribute [Price] set to five times the length
    of the flower type.  For the slots roses, 2999-01-01 and 14:00 the price
    is 25, on every host whose date parser reads that date and whose current
    date is before it. *)
Theorem valid_dialog_turn_delegates (E : host) (r : intent_request) :
  invocationSource r = "DialogCodeHook" ->
  (forall f d t v,
     has_flower_slots r (Some f) d t ->
     validate_order_flowers E (Some f) d t = Ok v -> isValid v = true ->
     order_flowers E r =
       Ok {| r_sessionAttributes :=
               Some (<["Price" := PInt (Z.of_nat (String.length f) * 5)]>
                       (match sessionAttributes r with
                        | Some attrs => attrs
                        | None => ∅
                        end));
             dialogAction := Delegate (get_slots r) |})
  /\ (get_slots r =
        flower_slots (Some "roses") (Some "2999-01-01") (Some "14:00") ->
      dateutil_parse E "2999-01-01" = Ok tt ->
      date_le (mkdate 2999 1 1) (today E) = false ->
      order_flowers E r =
        Ok {| r_sessionAttributes :=
                Some (<["Price" := PInt 25]>
                        (match sessionAttributes r with
                         | Some attrs => attrs
                         | None => ∅
                         end));
              dialogAction :=
                Delegate (flower_slots (Some "roses") (Some "2999-01-01")
                            (Some "14:00")) |}).
Proof.
  intros Hsrc.
  assert (Hgen : forall f d t v,
            has_flower_slots r (Some f) d t ->
            validate_order_flowers E (Some f) d t = Ok v -> isValid v = true ->
            order_flowers E r =
              Ok {| r_sessionAttributes :=
                      Some (<["Price" := PInt (Z.of_nat (String.length f) * 5)]>
                              (match sessionAttributes r with
                               | Some attrs => attrs
                               | None => ∅
                               end));
                    dialogAction := Delegate (get_slots r) |}).
  { intros f d t v Hs Hv Hvalid.
    rewrite (order_flowers_dialog E r (Some f) d t Hs Hsrc), Hv, bind_Ok.
    now rewrite Hvalid. }
  split; [exact Hgen |].
  intros Hslots Hparse Hlater.
  rewrite (Hgen "roses" (Some "2999-01-01") (Some "14:00") valid_verdict).
  - now rewrite Hslots.
  - unfold has_flower_slots. rewrite Hslots. unfold flower_slots.
    now simplify_map_eq.
  - apply order_flowers_passes.
    + unfold if_present, flower_ok, allowed. simpl. tauto.
    + split; [exact Hparse |]. exists (mkdate 2999 1 1). now split.
    + exists 14, 0. split; [| lia]. now apply sample_time_reads.
  - reflexivity.
Qed.

Lemma valid_dialog_turn_delegates_witness :
  order_flowers sample_host
    (request "DialogCodeHook" "OrderFlowers"
       (flower_slots (Some "roses") (Some "2999-01-01") (Some "14:00")))
  = Ok {| r_sessionAttributes := Some (<["Price" := PInt 25]> ∅);
          dialogAction :=
            Delegate (flower_slots (Some "roses") (Some "2999-01-01")
                        (Some "14:00")) |}.
Proof.
  exact (proj2 (valid_dialog_turn_delegates sample_host
                  (request "DialogCodeHook" "OrderFlowers"
                     (flower_slots (Some "roses") (Some "2999-01-01")
                        (Some "14:00")))
                  eq_refl)
           eq_refl eq_refl eq_refl).
Defined.

(** The response that re-prompts, when the verdict carries a message. *)
Lemma reprompt_with_message (r : intent_request) (v : validation_result)
    (slot : string) (m : message) :
  violatedSlot v = Some slot -> vr_message v = Some m ->
  reprompt r v =
    Ok {| r_sessionAttributes := sessionAttributes r;
          dialogAction :=
            ElicitSlot (currentIntent_name r) (<[slot := None]> (get_slots r))
              slot (Some m) |}.
Proof.
  intros Hslot Hm. unfold reprompt, message_item. now rewrite Hslot, Hm.
Qed.

(** The verdict without a message: reading its ['message'] raises. *)
Lemma reprompt_without_message (r : intent_request) (v : validation_result)
    (slot : string) :
  violatedSlot v = Some slot -> vr_message v = None ->
  reprompt r v = Raise (KeyError "message").
Proof.
  intros Hslot Hm. unfold reprompt, message_item. now rewrite Hslot, Hm.
Qed.

Lemma malformed_pickup_time_verdict (E : host) (f d : option string)
    (t : string) (v : validation_result) :
  malformed_time t ->
  validate_order_flowers E f d None = Ok v -> isValid v = true ->
  validate_order_flowers E f d (Some t) =
    Ok (build_validation_result false (Some "PickupTime") None).
Proof.
  intros Ht Hv Hvalid.
  rewrite order_flowers_checklist in Hv |- *.
  rewrite (pickup_time_malformed E t Ht).
  set (A := validate_order_flowers E f None None) in *.
  set (B := validate_order_flowers E None d None) in *.
  clearbody A B. simpl in Hv |- *.
  destruct A as [a | e]; [| discriminate Hv].
  destruct (isValid a) eqn:Ha; [| congruence].
  destruct B as [b | e]; [| discriminate Hv].
  destruct (isValid b) eqn:Hb; [reflexivity | congruence].
Qed.

Lemma malformed_dining_time_verdict (c l : option string) (t : string)
    (v : validation_result) :
  malformed_time t ->
  validate_make_suggestions c l None = Ok v -> isValid v = true ->
  validate_make_suggestions c l (Some t) =
    Ok (build_validation_result false (Some "DiningTime") None).
Proof.
  intros Ht Hv Hvalid.
  rewrite make_suggestions_checklist in Hv |- *.
  rewrite (dining_time_malformed t Ht).
  set (A := validate_make_suggestions c None None) in *.
  set (B := validate_make_suggestions None l None) in *.
  clearbody A B. simpl in Hv |- *.
  destruct A as [a | e]; [| discriminate Hv].
  destruct (isValid a) eqn:Ha; [| congruence].
  destruct B as [b | e]; [| discriminate Hv].
  destruct (isValid b) eqn:Hb; [reflexivity | congruence].
Qed.

(** C1.  What the handlers do on a dialog turn with a malformed time, the
    other slots passing their checks: the verdict names the time slot and
    carries no message, the handler then reads the ['message'] of the verdict,
    and the request ends in [KeyError] instead of an [ElicitSlot] response. *)
Theorem malformed_time_raises_KeyError (E : host) (t : string) :
  malformed_time t ->
  (forall r f d v,
     invocationSource r = "DialogCodeHook" ->
     has_flower_slots r f d (Some t) ->
     validate_order_flowers E f d None = Ok v -> isValid v = true ->
     validate_order_flowers E f d (Some t) =
       Ok {| isValid := false; violatedSlot := Some "PickupTime";
             vr_message := None |}
     /\ order_flowers E r = Raise (KeyError "message"))
  /\ (forall r c l n p v,
        invocationSource r = "DialogCodeHook" ->
        has_dining_slots r c l (Some t) n p ->
        validate_make_suggestions c l None = Ok v -> isValid v = true ->
        validate_make_suggestions c l (Some t) =
          Ok {| isValid := false; violatedSlot := Some "DiningTime";
                vr_message := None |}
        /\ make_suggestions r = Raise (KeyError "message")).
Proof.
  intros Ht. split.
  - intros r f d v Hsrc Hs Hv Hvalid.
    pose proof (malformed_pickup_time_verdict E f d t v Ht Hv Hvalid) as Hbad.
    split; [exact Hbad |].
    rewrite (order_flowers_dialog E r f d (Some t) Hs Hsrc), Hbad, bind_Ok.
    reflexivity.
  - intros r c l n p v Hsrc Hs Hv Hvalid.
    pose proof (malformed_dining_time_verdict c l t v Ht Hv Hvalid) as Hbad.
    split; [exact Hbad |].
    rewrite (make_suggestions_dialog r c l (Some t) n p Hs Hsrc), Hbad, bind_Ok.
    reflexivity.
Qed.

Lemma malformed_time_raises_KeyError_witness :
  order_flowers sample_host
    (request "DialogCodeHook" "OrderFlowers"
       (flower_slots (Some "roses") None (Some "9:30")))
  = Raise (KeyError "message")
  /\ make_suggestions
       (request "DialogCodeHook" "MakeDiningSuggestions"
          (dining_slots (Some "thai") None (Some "ab:cd") None None))
     = Raise (KeyError "message").
Proof.
  split.
  - refine (proj2 (proj1 (malformed_time_raises_KeyError sample_host "9:30" _)
                     (request "DialogCodeHook" "OrderFlowers"
                        (flower_slots (Some "roses") None (Some "9:30")))
                     (Some "roses") None valid_verdict
                     eq_refl (flower_slots_has _ _ _ _ _) eq_refl eq_refl)).
    left. simpl. lia.
  - refine (proj2 (proj2 (malformed_time_raises_KeyError sample_host "ab:cd" _)
                     (request "DialogCodeHook" "MakeDiningSuggestions"
                        (dining_slots (Some "thai") None (Some "ab:cd") None None))
                     (Some "thai") None None None valid_verdict
                     eq_refl (dining_slots_has _ _ _ _ _ _ _) eq_refl eq_refl)).
    right. exists "ab", "cd". split; [reflexivity | now left].
Defined.

(** C4.  A dialog turn whose slots fail validation and that gets no
    [ElicitSlot] response: the dining time ["7pm"] fails the time check, the
    verdict carries no message, and the handler raises [KeyError]. *)
Theorem failed_validation_without_elicit :
  validate_make_suggestions (Some "thai") (Some "manhattan") (Some "7pm")
  = Ok {| isValid := false; violatedSlot := Some "DiningTime";
          vr_message := None |}
  /\ make_suggestions
       (request "DialogCodeHook" "MakeDiningSuggestions"
          (dining_slots (Some "thai") (Some "manhattan") (Some "7pm")
             (Some "2") (Some "5555555555")))
     = Raise (KeyError "message").
Proof.
  split; [reflexivity |].
  rewrite (make_suggestions_dialog _ _ _ _ _ _ (dining_slots_has _ _ _ _ _ _ _)
             eq_refl).
  reflexivity.
Qed.

(** C2.  A date that the date parser reads but that is not written
    [YYYY-MM-DD]: [isvalid_date] answers [True], [strptime] then raises
    [ValueError], and so does the validator.  An exception of the parser
    that is not a [ValueError] is not caught either. *)
Theorem date_in_other_format_raises (E : host) (d : string) (f t : option string) :
  if_present flower_ok f ->
  (dateutil_parse E d = Ok tt -> strptime_Ymd d = Raise ValueError ->
     validate_order_flowers E f (Some d) t = Raise ValueError)
  /\ (forall e, dateutil_parse E d = Raise e -> e <> ValueError ->
        validate_order_flowers E f (Some d) t = Raise e).
Proof.
  intros Hf. split.
  - intros Hp Hs.
    rewrite order_flowers_checklist, (flower_passes E f Hf), date_alone, Hp, Hs.
    reflexivity.
  - intros e He Hne.
    rewrite order_flowers_checklist, (flower_passes E f Hf), date_alone, He.
    destruct e; try reflexivity. congruence.
Qed.

Lemma date_in_other_format_raises_witness :
  validate_order_flowers sample_host None (Some "01/02/2030") None
  = Raise ValueError.
Proof.
  exact (proj1 (date_in_other_format_raises sample_host "01/02/2030" None None I)
           eq_refl eq_refl).
Defined.

(** C7.  Two invalid values whose earliest is not named.  With a flower type
    that passes, the date [01/02/2020] is the earliest invalid value on every
    host whose current date is 2 January 2020 or later; the parser reads it,
    [strptime] raises, and the validator returns no verdict and names no
    slot, whatever the time is.  The same day written [2020-01-02] is named
    as the claim says: the verdict is the one of [PickupDate], and the time
    is not looked at. *)
Theorem past_date_in_other_format_names_no_slot (E : host)
    (f t : option string) :
  if_present flower_ok f ->
  date_le (mkdate 2020 1 2) (today E) = true ->
  (dateutil_parse E "01/02/2020" = Ok tt ->
     validate_order_flowers E f (Some "01/02/2020") t = Raise ValueError)
  /\ (dateutil_parse E "2020-01-02" = Ok tt ->
        validate_order_flowers E f (Some "2020-01-02") t =
          Ok {| isValid := false; violatedSlot := Some "PickupDate";
                vr_message :=
                  Some (PlainText "You can pick up the flowers from tomorrow onwards.  What day would you like to pick them up?") |}).
Proof.
  intros Hf Hpast. split; intros Hp.
  - rewrite order_flowers_checklist, (flower_passes E f Hf), date_alone, Hp.
    reflexivity.
  - rewrite order_flowers_checklist, (flower_passes E f Hf), date_alone, Hp.
    change (strptime_Ymd "2020-01-02") with (Ok (mkdate 2020 1 2)).
    cbv iota. rewrite Hpast. reflexivity.
Qed.

(** Roses, a past date and a time after closing: no verdict for the first
    writing of the date, the verdict of the date for the second. *)
Lemma past_date_in_other_format_names_no_slot_witness :
  validate_order_flowers past_date_host (Some "roses") (Some "01/02/2020")
    (Some "23:00")
  = Raise ValueError
  /\ validate_order_flowers past_date_host (Some "roses") (Some "2020-01-02")
       (Some "23:00")
     = Ok {| isValid := false; violatedSlot := Some "PickupDate";
             vr_message :=
               Some (PlainText "You can pick up the flowers from tomorrow onwards.  What day would you like to pick them up?") |}.
Proof.
  split.
  - refine (proj1 (past_date_in_other_format_names_no_slot past_date_host
                     (Some "roses") (Some "23:00") _ eq_refl) eq_refl).
    unfold if_present, flower_ok, allowed. simpl. tauto.
  - refine (proj2 (past_date_in_other_format_names_no_slot past_date_host
                     (Some "roses") (Some "23:00") _ eq_refl) eq_refl).
    unfold if_present, flower_ok, allowed. simpl. tauto.
Defined.

(** C8.  A slot set whose present values all satisfy their rules and that
    is not given the valid verdict.  On every host whose parser reads
    [01/02/2030] and whose current date is before 2 January 2030, that date
    is a calendar date later than the current one; with a flower type and a
    time that pass, or absent, the validator raises [ValueError] at
    [strptime].  The same day written [2030-01-02] gets the valid verdict. *)
Theorem later_date_in_other_format_raises (E : host) (f t : option string) :
  if_present flower_ok f -> if_present (time_ok 10 16) t ->
  date_le (mkdate 2030 1 2) (today E) = false ->
  (dateutil_parse E "01/02/2030" = Ok tt ->
     validate_order_flowers E f (Some "01/02/2030") t = Raise ValueError)
  /\ (dateutil_parse E "2030-01-02" = Ok tt ->
        validate_order_flowers E f (Some "2030-01-02") t = Ok valid_verdict).
Proof.
  intros Hf Ht Hlater. split; intros Hp.
  - rewrite order_flowers_checklist, (flower_passes E f Hf), date_alone, Hp.
    reflexivity.
  - apply order_flowers_passes; [exact Hf | | exact Ht].
    split; [exact Hp |]. exists (mkdate 2030 1 2). now split.
Qed.

Lemma later_date_in_other_format_raises_witness :
  validate_order_flowers sample_host (Some "roses") (Some "01/02/2030") None
  = Raise ValueError
  /\ validate_order_flowers sample_host (Some "roses") (Some "2030-01-02") None
     = Ok valid_verdict.
Proof.
  split.
  - refine (proj1 (later_date_in_other_format_raises sample_host
                     (Some "roses") None _ I eq_refl) eq_refl).
    unfold if_present, flower_ok, allowed. simpl. tauto.
  - refine (proj2 (later_date_in_other_format_raises sample_host
                     (Some "roses") None _ I eq_refl) eq_refl).
    unfold if_present, flower_ok, allowed. simpl. tauto.
Defined.

(** *** Further properties of the dialog turn and of the checks *)

(** X1.  On a dialog turn whose verdict is not valid and carries a message,
    both handlers return [ElicitSlot] for the slot the verdict names, with the
    message of the verdict, the intent name and the session attributes of the
    request, and a slot mapping in which that slot is [None] and every other
    key is as it came. *)
Theorem elicit_clears_only_the_violated_slot (E : host) (r : intent_request)
    (v : validation_result) (m : message) :
  invocationSource r = "DialogCodeHook" ->
  isValid v = false -> vr_message v = Some m ->
  (forall f d t,
     has_flower_slots r f d t -> validate_order_flowers E f d t = Ok v ->
     exists slot slots,
       violatedSlot v = Some slot
       /\ order_flowers E r =
            Ok {| r_sessionAttributes := sessionAttributes r;
                  dialogAction :=
                    ElicitSlot (currentIntent_name r) slots slot (Some m) |}
       /\ slots !! slot = Some None
       /\ forall k, k <> slot -> slots !! k = get_slots r !! k)
  /\ (forall c l t n p,
        has_dining_slots r c l t n p -> validate_make_suggestions c l t = Ok v ->
        exists slot slots,
          violatedSlot v = Some slot
          /\ make_suggestions r =
               Ok {| r_sessionAttributes := sessionAttributes r;
                     dialogAction :=
                       ElicitSlot (currentIntent_name r) slots slot (Some m) |}
          /\ slots !! slot = Some None
          /\ forall k, k <> slot -> slots !! k = get_slots r !! k).
Proof.
  intros Hsrc Hbad Hm. split.
  - intros f d t Hs Hv.
    destruct (proj1 (invalid_names_a_slot E v) f d t Hv Hbad) as [slot Hslot].
    exists slot, (<[slot := None]> (get_slots r)).
    split; [exact Hslot |]. split; [| split].
    + rewrite (order_flowers_dialog E r f d t Hs Hsrc), Hv, bind_Ok, Hbad.
      exact (reprompt_with_message r v slot m Hslot Hm).
    + apply lookup_insert_eq.
    + intros k Hk. now apply lookup_insert_ne.
  - intros c l t n p Hs Hv.
    destruct (proj2 (invalid_names_a_slot E v) c l t Hv Hbad) as [slot Hslot].
    exists slot, (<[slot := None]> (get_slots r)).
    split; [exact Hslot |]. split; [| split].
    + rewrite (make_suggestions_dialog r c l t n p Hs Hsrc), Hv, bind_Ok, Hbad.
      exact (reprompt_with_message r v slot m Hslot Hm).
    + apply lookup_insert_eq.
    + intros k Hk. now apply lookup_insert_ne.
Qed.

Lemma elicit_clears_only_the_violated_slot_witness :
  exists slot slots,
    Some "FlowerType" = Some slot
    /\ order_flowers sample_host
         (request "DialogCodeHook" "OrderFlowers"
            (flower_slots (Some "weeds") None (Some "14:00")))
       = Ok {| r_sessionAttributes := None;
               dialogAction :=
                 ElicitSlot "OrderFlowers" slots slot
                   (Some (PlainText "We do not have weeds, would you like a different type of flower?  Our most popular flowers are roses")) |}
    /\ slots !! slot = Some None
    /\ forall k, k <> slot ->
         slots !! k = flower_slots (Some "weeds") None (Some "14:00") !! k.
Proof.
  exact (proj1 (elicit_clears_only_the_violated_slot sample_host
                  (request "DialogCodeHook" "OrderFlowers"
                     (flower_slots (Some "weeds") None (Some "14:00")))
                  (build_validation_result false (Some "FlowerType")
                     (Some "We do not have weeds, would you like a different type of flower?  Our most popular flowers are roses"))
                  _ eq_refl eq_refl eq_refl)
           (Some "weeds") None (Some "14:00")
           (flower_slots_has _ _ _ _ _) eq_refl).
Defined.

(** X2.  The two verdicts of the date check, the flower type passing: a date
    that the parser rejects with [ValueError] fails with the corrective
    message, and a date written [YYYY-MM-DD] that is the current date or an
    earlier one fails with the message about tomorrow; in both the slot named
    is the date, whatever the time is. *)
Theorem date_check_verdicts (E : host) (d : string) (f t : option string) :
  if_present flower_ok f ->
  (dateutil_parse E d = Raise ValueError ->
     validate_order_flowers E f (Some d) t =
       Ok {| isValid := false; violatedSlot := Some "PickupDate";
             vr_message :=
               Some (PlainText "I did not understand that, what date would you like to pick the flowers up?") |})
  /\ (forall when,
        dateutil_parse E d = Ok tt -> strptime_Ymd d = Ok when ->
        date_le when (today E) = true ->
        validate_order_flowers E f (Some d) t =
          Ok {| isValid := false; violatedSlot := Some "PickupDate";
                vr_message :=
                  Some (PlainText "You can pick up the flowers from tomorrow onwards.  What day would you like to pick them up?") |}).
Proof.
  intros Hf. split.
  - intros Hp.
    rewrite order_flowers_checklist, (flower_passes E f Hf), date_alone, Hp.
    reflexivity.
  - intros when Hp Hs Hle.
    rewrite order_flowers_checklist, (flower_passes E f Hf), date_alone,
      Hp, Hs, Hle.
    reflexivity.
Qed.

(** The current date of [sample_host] itself is too early. *)
Lemma date_check_verdicts_witness :
  validate_order_flowers sample_host None (Some "2024-02-29") (Some "14:00")
  = Ok {| isValid := false; violatedSlot := Some "PickupDate";
          vr_message :=
            Some (PlainText "You can pick up the flowers from tomorrow onwards.  What day would you like to pick them up?") |}.
Proof.
  exact (proj2 (date_check_verdicts sample_host "2024-02-29" None
                  (Some "14:00") I)
           (mkdate 2024 2 29) eq_refl eq_refl eq_refl).
Defined.

(** X3.  An enumerated value outside its allow-list, compared in lower case,
    fails naming its own slot: the flower type and the cuisine whatever the
    other slots hold, the location when the cuisine passes. *)
Theorem enumerated_value_outside_list (E : host) (x : string) :
  (~ flower_ok x ->
     forall d t, exists text,
       validate_order_flowers E (Some x) d t =
         Ok {| isValid := false; violatedSlot := Some "FlowerType";
               vr_message := Some (PlainText text) |})
  /\ (~ cuisine_ok x ->
        forall l t, exists text,
          validate_make_suggestions (Some x) l t =
            Ok {| isValid := false; violatedSlot := Some "Cuisine";
                  vr_message := Some (PlainText text) |})
  /\ (~ location_ok x ->
        forall c t, if_present cuisine_ok c -> exists text,
          validate_make_suggestions c (Some x) t =
            Ok {| isValid := false; violatedSlot := Some "Location";
                  vr_message := Some (PlainText text) |}).
Proof.
  split; [| split].
  - intros H d t. apply str_in_not_In in H. eexists.
    rewrite order_flowers_checklist, flower_alone, H. reflexivity.
  - intros H l t. apply str_in_not_In in H. eexists.
    rewrite make_suggestions_checklist, cuisine_alone, H. reflexivity.
  - intros H c t Hc. apply str_in_not_In in H. eexists.
    rewrite make_suggestions_checklist, (cuisine_passes c Hc),
      location_alone, H.
    reflexivity.
Qed.

Lemma enumerated_value_outside_list_witness :
  exists text,
    validate_make_suggestions (Some "thai") (Some "Brooklyn") (Some "18:00") =
      Ok {| isValid := false; violatedSlot := Some "Location";
            vr_message := Some (PlainText text) |}.
Proof.
  refine (proj2 (proj2 (enumerated_value_outside_list sample_host "Brooklyn"))
            _ (Some "thai") (Some "18:00") _).
  - unfold location_ok, allowed. simpl. intros [H | []]. discriminate H.
  - unfold if_present, cuisine_ok, allowed. simpl. tauto.
Defined.

(** X4.  A five-character time without a colon, or with more than one, is
    not given a verdict: unpacking the split raises [ValueError] in both
    validators, when the earlier checks pass. *)
Theorem time_without_one_colon_raises (E : host) (t : string) :
  String.length t = 5%nat ->
  (forall h m, split ":" t <> [h; m]) ->
  (forall f d, if_present flower_ok f -> if_present (date_ok E) d ->
     validate_order_flowers E f d (Some t) = Raise ValueError)
  /\ (forall c l, if_present cuisine_ok c -> if_present location_ok l ->
        validate_make_suggestions c l (Some t) = Raise ValueError).
Proof.
  intros Hlen Hsplit.
  assert (Ho : validate_order_flowers E None None (Some t) = Raise ValueError).
  { unfold validate_order_flowers. rewrite Hlen. cbn [Nat.eqb negb].
    destruct (split ":" t) as [| h [| m [| x rest]]]; try reflexivity.
    now destruct (Hsplit h m). }
  assert (Hm : validate_make_suggestions None None (Some t) = Raise ValueError).
  { unfold validate_make_suggestions. rewrite Hlen. cbn [Nat.eqb negb].
    destruct (split ":" t) as [| h [| m [| x rest]]]; try reflexivity.
    now destruct (Hsplit h m). }
  split.
  - intros f d Hf Hd.
    now rewrite order_flowers_checklist, (flower_passes E f Hf),
      (date_passes E d Hd), Ho.
  - intros c l Hc Hl.
    now rewrite make_suggestions_checklist, (cuisine_passes c Hc),
      (location_passes l Hl), Hm.
Qed.

Lemma time_without_one_colon_raises_witness :
  validate_order_flowers sample_host None None (Some "12345") = Raise ValueError
  /\ validate_make_suggestions None None (Some "1:2:3") = Raise ValueError.
Proof.
  split.
  - refine (proj1 (time_without_one_colon_raises sample_host "12345"
                     eq_refl _) None None I I).
    intros h m. simpl. discriminate.
  - refine (proj2 (time_without_one_colon_raises sample_host "1:2:3"
                     eq_refl _) None None I I).
    intros h m. simpl. discriminate.
Defined.
(** *** Fulfillment turns *)



(** *** The intent router *)

(** C5.  [dispatch] hands [OrderFlowers] and [MakeDiningSuggestions] to their
    own handlers, answers [MakeGreeting] and [MakeThankYou] with a fixed
    [Close]/['Fulfilled'] text whatever the invocation source is, and raises
    the unsupported-intent exception, returning no response, for every other
    name. *)
Theorem dispatch_routes (E : host) (r : intent_request) :
  (currentIntent_name r = "OrderFlowers" ->
     dispatch E r = order_flowers E r)
  /\ (currentIntent_name r = "MakeGreeting" ->
        dispatch E r =
          Ok {| r_sessionAttributes := sessionAttributes r;
                dialogAction :=
                  Close "Fulfilled"
                    (PlainText "Hey there, how can I help you?") |})
  /\ (currentIntent_name r = "MakeThankYou" ->
        dispatch E r =
          Ok {| r_sessionAttributes := sessionAttributes r;
                dialogAction :=
                  Close "Fulfilled" (PlainText "Thanks for coming!") |})
  /\ (currentIntent_name r = "MakeDiningSuggestions" ->
        dispatch E r = make_suggestions r)
  /\ (~ In (currentIntent_name r) registered_intents ->
        dispatch E r =
          Raise (Exception ("Intent with name " +:+ currentIntent_name r
                            +:+ " not supported"))).
Proof.
  unfold dispatch. repeat split; intros H.
  - now rewrite H.
  - now rewrite H.
  - now rewrite H.
  - now rewrite H.
  - simpl in H.
    repeat match goal with
    | |- context [String.eqb ?a ?b] =>
        destruct (String.eqb_spec a b) as [Heq | _];
        [ exfalso; apply H; rewrite Heq; tauto | ]
    end.
    reflexivity.
Qed.

Lemma dispatch_routes_witness :
  dispatch sample_host (request "DialogCodeHook" "MakeGreeting" ∅)
  = Ok {| r_sessionAttributes := None;
          dialogAction :=
            Close "Fulfilled" (PlainText "Hey there, how can I help you?") |}
  /\ dispatch sample_host (request "DialogCodeHook" "BookHotel" ∅)
     = Raise (Exception "Intent with name BookHotel not supported").
Proof.
  split.
  - exact (proj1 (proj2 (dispatch_routes sample_host
             (request "DialogCodeHook" "MakeGreeting" ∅))) eq_refl).
  - refine (proj2 (proj2 (proj2 (proj2 (dispatch_routes sample_host
             (request "DialogCodeHook" "BookHotel" ∅))))) _).
    simpl. intros [H | [H | [H | [H | []]]]]; discriminate H.
Defined.

(** *** The entry point *)

Lemma order_text_not_fixed (x : string) :
  String.eqb ("Thanks, your order for " +:+ x) "Hey there, how can I help you?"
  || String.eqb ("Thanks, your order for " +:+ x) "Thanks for coming!" = false.
Proof. reflexivity. Qed.

Lemma suggestion_text_not_fixed (x : string) :
  String.eqb ("Thanks an sms of suggestions for " +:+ x)
    "Hey there, how can I help you?"
  || String.eqb ("Thanks an sms of suggestions for " +:+ x)
       "Thanks for coming!" = false.
Proof. reflexivity. Qed.

(** C9.  When [dispatch] returns a [Close] whose text is neither of the two
    fixed texts, [lambda_handler] does not return it: it raises the
    [NameError] of the unbound name [tArray].  Every fulfillment turn of
    [OrderFlowers] and of [MakeDiningSuggestions] is such a request. *)
Theorem lambda_handler_unbound_name (E : host) (r : intent_request) :
  (forall resp state m,
     dispatch E r = Ok resp ->
     dialogAction resp = Close state m ->
     content m <> "Hey there, how can I help you?" ->
     content m <> "Thanks for coming!" ->
     lambda_handler E r = Raise (NameError "tArray"))
  /\ (forall f d t,
        currentIntent_name r = "OrderFlowers" ->
        invocationSource r <> "DialogCodeHook" ->
        has_flower_slots r f d t ->
        lambda_handler E r = Raise (NameError "tArray"))
  /\ (forall c l t n p,
        currentIntent_name r = "MakeDiningSuggestions" ->
        invocationSource r <> "DialogCodeHook" ->
        has_dining_slots r c l t n p ->
        lambda_handler E r = Raise (NameError "tArray")).
Proof.
  split; [| split].
  - intros resp state m Hd Ha Hg Ht. unfold lambda_handler.
    rewrite Hd, bind_Ok, Ha.
    apply String.eqb_neq in Hg, Ht. cbv zeta. now rewrite Hg, Ht.
  - intros f d t Hn Hsrc Hs. unfold lambda_handler, dispatch.
    rewrite Hn. cbv zeta. change ("OrderFlowers" =? "OrderFlowers")%string with true.
    cbv iota. rewrite (order_flowers_fulfil E r f d t Hs Hsrc), bind_Ok.
    cbn [dialogAction close content PlainText].
    now rewrite order_text_not_fixed.
  - intros c l t n p Hn Hsrc Hs. unfold lambda_handler, dispatch.
    rewrite Hn. cbv zeta.
    change ("MakeDiningSuggestions" =? "OrderFlowers")%string with false.
    change ("MakeDiningSuggestions" =? "MakeGreeting")%string with false.
    change ("MakeDiningSuggestions" =? "MakeThankYou")%string with false.
    change ("MakeDiningSuggestions" =? "MakeDiningSuggestions")%string with true.
    cbv iota. rewrite (make_suggestions_fulfil r c l t n p Hs Hsrc), bind_Ok.
    cbn [dialogAction close content PlainText].
    now rewrite suggestion_text_not_fixed.
Qed.

Lemma lambda_handler_unbound_name_witness :
  lambda_handler sample_host
    (request "FulfillmentCodeHook" "OrderFlowers"
       (flower_slots (Some "roses") (Some "2999-01-01") (Some "14:00")))
  = Raise (NameError "tArray").
Proof.
  refine (proj1 (proj2 (lambda_handler_unbound_name sample_host
            (request "FulfillmentCodeHook" "OrderFlowers"
               (flower_slots (Some "roses") (Some "2999-01-01") (Some "14:00")))))
            _ _ _ eq_refl _ (flower_slots_has _ _ _ _ _)).
  simpl. discriminate.
Defined.

(** ** Properties of [lfo.py] *)

(** *** Splitting at a separator *)

Lemma str_app_cons (c : ascii) (a b : string) :
  String c a +:+ b = String c (a +:+ b).
Proof. reflexivity. Qed.

Lemma str_app_nil_l (b : string) : EmptyString +:+ b = b.
Proof. reflexivity. Qed.

Lemma str_app_assoc (a b c : string) : (a +:+ b) +:+ c = a +:+ (b +:+ c).
Proof.
  induction a as [| x a IH]; [reflexivity |].
  now rewrite !str_app_cons, IH.
Qed.

Lemma str_app_nil_r (a : string) : a +:+ EmptyString = a.
Proof.
  induction a as [| x a IH]; [reflexivity |].
  now rewrite str_app_cons, IH.
Qed.

Lemma starts_with_app (p r : string) : Lfo.starts_with p (p +:+ r) = true.
Proof.
  induction p as [| c p IH]; [reflexivity |].
  rewrite str_app_cons. simpl. now rewrite Ascii.eqb_refl, IH.
Qed.

Lemma split_by_nonempty (sep : string) (s : string) :
  forall skip, Lfo.split_by sep skip s <> [].
Proof.
  induction s as [| c s IH]; intros skip; simpl; [discriminate |].
  destruct skip as [| k]; [| apply IH].
  destruct (Lfo.starts_with sep (String c s)); [discriminate |].
  destruct (Lfo.split_by sep 0 s); discriminate.
Qed.

Lemma split_by_skip (sep : string) (x r : string) :
  Lfo.split_by sep (String.length x) (x +:+ r) = Lfo.split_by sep 0 r
  \/ (r = EmptyString /\ Lfo.split_by sep (String.length x) (x +:+ r) = [EmptyString]).
Proof.
  induction x as [| c x IH].
  - now left.
  - rewrite str_app_cons. exact IH.
Qed.

Lemma split_by_skip_eq (sep : string) (x r : string) :
  Lfo.split_by sep (String.length x) (x +:+ r) = Lfo.split_by sep 0 r.
Proof.
  destruct (split_by_skip sep x r) as [H | [-> H]]; [exact H |].
  rewrite H. reflexivity.
Qed.

(** An occurrence at the start closes an empty part. *)
Lemma split_str_at_sep (c : ascii) (sep r : string) :
  Lfo.split_str (String c sep) (String c sep +:+ r)
  = EmptyString :: Lfo.split_str (String c sep) r.
Proof.
  unfold Lfo.split_str. rewrite str_app_cons. cbn [Lfo.split_by].
  rewrite <- str_app_cons, starts_with_app.
  cbn [String.length]. rewrite Nat.sub_succ, Nat.sub_0_r.
  now rewrite split_by_skip_eq.
Qed.

(** Text in which the separator does not start is added to the first part
    of what follows. *)
Lemma split_str_past (sep u tail : string) :
  no_match_in sep u tail = true ->
  Lfo.split_str sep (u +:+ tail) =
    match Lfo.split_str sep tail with
    | p :: ps => (u +:+ p) :: ps
    | [] => [u]
    end.
Proof.
  unfold Lfo.split_str.
  induction u as [| c u IH]; intros H.
  - rewrite str_app_nil_l.
    destruct (Lfo.split_by sep 0 tail) eqn:Ht; [| reflexivity].
    exfalso. exact (split_by_nonempty sep tail 0 Ht).
  - cbn [no_match_in] in H. apply andb_true_iff in H as [Hc Hu].
    apply negb_true_iff in Hc. rewrite str_app_cons in Hc |- *.
    cbn [Lfo.split_by]. rewrite Hc, (IH Hu).
    destruct (Lfo.split_by sep 0 tail) as [| p ps] eqn:Ht; [| reflexivity].
    exfalso. exact (split_by_nonempty sep tail 0 Ht).
Qed.

Lemma split_str_no_match (sep s : string) :
  no_match_in sep s EmptyString = true -> Lfo.split_str sep s = [s].
Proof.
  intros H. rewrite <- (str_app_nil_r s) at 1.
  rewrite (split_str_past sep s EmptyString H).
  cbn [Lfo.split_str Lfo.split_by]. now rewrite str_app_nil_r.
Qed.

Lemma no_match_in_app (sep a b tail : string) :
  no_match_in sep (a +:+ b) tail
  = no_match_in sep a (b +:+ tail) && no_match_in sep b tail.
Proof.
  induction a as [| c a IH]; [reflexivity |].
  rewrite str_app_cons. cbn [no_match_in].
  now rewrite IH, <- !str_app_cons, str_app_assoc, andb_assoc.
Qed.

(** The separator starts with a double quote, so it starts nowhere in a text
    without one. *)
Lemma quote_free_no_match (x tail : string) :
  quote_free x = true -> no_match_in Lfo.text_key x tail = true.
Proof.
  induction x as [| c x IH]; [reflexivity |].
  cbn [quote_free no_match_in]. intros H.
  apply andb_true_iff in H as [Hc Hx].
  rewrite (IH Hx), andb_true_r.
  apply negb_true_iff in Hc. rewrite Ascii.eqb_sym in Hc.
  rewrite str_app_cons. unfold Lfo.text_key. cbn [Lfo.starts_with].
  now rewrite Hc.
Qed.

(** *** Splitting at one character *)

Lemma split_char_free (a : string) :
  quote_free a = true -> split Lfo.quote a = [a].
Proof.
  induction a as [| c a IH]; simpl; [reflexivity |].
  intros H. apply andb_true_iff in H as [Hc Ha].
  apply negb_true_iff in Hc. now rewrite Hc, (IH Ha).
Qed.

Lemma split_char_at (a r : string) :
  quote_free a = true ->
  split Lfo.quote (a +:+ String Lfo.quote r) = a :: split Lfo.quote r.
Proof.
  induction a as [| c a IH]; intros H.
  - rewrite str_app_nil_l. cbn [split]. now rewrite Ascii.eqb_refl.
  - cbn [quote_free] in H. apply andb_true_iff in H as [Hc Ha].
    apply negb_true_iff in Hc. rewrite str_app_cons. cbn [split].
    now rewrite Hc, (IH Ha).
Qed.

Lemma split_parts_quote_free (s : string) :
  Forall (fun p => quote_free p = true) (split Lfo.quote s).
Proof.
  induction s as [| c s IH]; simpl.
  - constructor; [reflexivity | constructor].
  - destruct (Ascii.eqb c Lfo.quote) eqn:Hc.
    + constructor; [reflexivity | exact IH].
    + destruct (split Lfo.quote s) as [| p ps].
      * constructor; [simpl; now rewrite Hc | constructor].
      * inversion IH as [| ? ? Hp Hps]; subst.
        constructor; [simpl; now rewrite Hc, Hp | exact Hps].
Qed.

Lemma item_In {A : Type} (i : nat) (l : list A) (x : A) :
  Lfo.item i l = Ok x -> In x l.
Proof.
  unfold Lfo.item. destruct (nth_error l i) eqn:H; [| discriminate].
  intros [= <-]. eapply nth_error_In; eassumption.
Qed.

(** *** Reading the chat text *)

Lemma item_succ {A : Type} (i : nat) (x : A) (l : list A) :
  Lfo.item (S i) (x :: l) = Lfo.item i l.
Proof. reflexivity. Qed.

Lemma split_str_head_at_quote (rest : string) :
  exists p ps,
    Lfo.split_str Lfo.text_key (String Lfo.quote rest) = p :: ps
    /\ (p = EmptyString \/ exists p', p = String Lfo.quote p').
Proof.
  unfold Lfo.split_str. cbn [Lfo.split_by].
  destruct (Lfo.starts_with Lfo.text_key (String Lfo.quote rest)).
  - eexists _, _. split; [reflexivity | now left].
  - destruct (Lfo.split_by Lfo.text_key 0 rest) as [| p ps];
      eexists _, _; (split; [reflexivity | right; now eexists]).
Qed.

Lemma quoted_text_no_match (gap msg rest : string) :
  quote_free gap = true -> quote_free msg = true ->
  Lfo.starts_with Lfo.text_key
    (String Lfo.quote (msg +:+ String Lfo.quote rest)) = false ->
  no_match_in Lfo.text_key (gap +:+ String Lfo.quote msg)
    (String Lfo.quote rest) = true.
Proof.
  intros Hgap Hmsg Hopen.
  rewrite no_match_in_app, (quote_free_no_match gap _ Hgap).
  cbn [no_match_in andb].
  rewrite str_app_cons, Hopen. cbn [negb andb].
  exact (quote_free_no_match msg _ Hmsg).
Qed.

(** The text after the separator, up to the next one, begins with the gap,
    the opening quote and the message. *)
Lemma after_key_part (gap msg rest : string) :
  quote_free gap = true -> quote_free msg = true ->
  Lfo.starts_with Lfo.text_key
    (String Lfo.quote (msg +:+ String Lfo.quote rest)) = false ->
  exists p ps,
    Lfo.split_str Lfo.text_key
      (gap +:+ String Lfo.quote (msg +:+ String Lfo.quote rest))
    = (gap +:+ String Lfo.quote (msg +:+ p)) :: ps
    /\ (p = EmptyString \/ exists p', p = String Lfo.quote p').
Proof.
  intros Hgap Hmsg Hopen.
  pose proof (quoted_text_no_match gap msg rest Hgap Hmsg Hopen) as Hno.
  destruct (split_str_head_at_quote rest) as (p & ps & Hsplit & Hp).
  exists p, ps. split; [| exact Hp].
  replace (gap +:+ String Lfo.quote (msg +:+ String Lfo.quote rest))
    with ((gap +:+ String Lfo.quote msg) +:+ String Lfo.quote rest)
    by now rewrite str_app_assoc, !str_app_cons.
  rewrite (split_str_past _ _ _ Hno), Hsplit.
  now rewrite str_app_assoc, !str_app_cons.
Qed.

Lemma second_part_is_message (gap msg p : string) :
  quote_free gap = true -> quote_free msg = true ->
  p = EmptyString \/ (exists p', p = String Lfo.quote p') ->
  Lfo.item 1 (split Lfo.quote (gap +:+ String Lfo.quote (msg +:+ p))) = Ok msg.
Proof.
  intros Hgap Hmsg Hp. rewrite (split_char_at gap _ Hgap), item_succ.
  destruct Hp as [-> | [p' ->]].
  - now rewrite str_app_nil_r, (split_char_free msg Hmsg).
  - now rewrite (split_char_at msg p' Hmsg).
Qed.

Lemma read_quoted (pre gap msg rest : string) :
  no_match_in Lfo.text_key pre
    (Lfo.text_key +:+ gap +:+ String Lfo.quote (msg +:+ String Lfo.quote rest))
  = true ->
  quote_free gap = true -> quote_free msg = true ->
  Lfo.starts_with Lfo.text_key
    (String Lfo.quote (msg +:+ String Lfo.quote rest)) = false ->
  Lfo.extract_text
    (pre +:+ Lfo.text_key +:+ gap
     +:+ String Lfo.quote (msg +:+ String Lfo.quote rest))
  = Ok msg.
Proof.
  intros Hpre Hgap Hmsg Hopen. unfold Lfo.extract_text.
  rewrite (split_str_past _ _ _ Hpre).
  unfold Lfo.text_key at 1 2. rewrite split_str_at_sep.
  fold Lfo.text_key. rewrite item_succ.
  destruct (after_key_part gap msg rest Hgap Hmsg Hopen)
    as (p & ps & Hsplit & Hp).
  rewrite Hsplit. cbn [Lfo.item nth_error]. rewrite bind_Ok.
  exact (second_part_is_message gap msg p Hgap Hmsg Hp).
Qed.

(** X5.  [extract_text] returns the text between the first two double
    quotes that follow the first occurrence of the separator: when the
    separator starts nowhere before, the gap after it and the message hold no
    double quote, and the separator does not start again at the opening
    quote, the message is what is read, whatever follows the closing quote. *)
Theorem extract_text_reads_quoted (pre gap msg rest : string) :
  no_match_in Lfo.text_key pre
    (Lfo.text_key +:+ gap +:+ String Lfo.quote (msg +:+ String Lfo.quote rest))
  = true ->
  quote_free gap = true -> quote_free msg = true ->
  Lfo.starts_with Lfo.text_key
    (String Lfo.quote (msg +:+ String Lfo.quote rest)) = false ->
  Lfo.extract_text
    (pre +:+ Lfo.text_key +:+ gap
     +:+ String Lfo.quote (msg +:+ String Lfo.quote rest))
  = Ok msg.
Proof. exact (read_quoted pre gap msg rest). Qed.

(** A request body as the chat front end sends it. *)
Lemma extract_text_reads_quoted_witness :
  Lfo.extract_text
    ("{" +:+ Lfo.dumps_str "messages" +:+ ":[{" +:+ Lfo.dumps_str "type"
     +:+ ":" +:+ Lfo.dumps_str "unstructured" +:+ ","
     +:+ Lfo.dumps_str "unstructured" +:+ ":{" +:+ Lfo.text_key +:+ " "
     +:+ String Lfo.quote ("I want dinner"
                           +:+ String Lfo.quote ",more:1}}]}"))
  = Ok "I want dinner".
Proof.
  exact (extract_text_reads_quoted
           ("{" +:+ Lfo.dumps_str "messages" +:+ ":[{" +:+ Lfo.dumps_str "type"
            +:+ ":" +:+ Lfo.dumps_str "unstructured" +:+ ","
            +:+ Lfo.dumps_str "unstructured" +:+ ":{")
           " " "I want dinner" ",more:1}}]}"
           eq_refl eq_refl eq_refl eq_refl).
Defined.

(** X6.  The text that [extract_text] returns never holds a double quote:
    the reading stops at the first one, also at an escaped one inside the
    message. *)
Theorem extract_text_stops_at_quote (body text : string) :
  Lfo.extract_text body = Ok text -> quote_free text = true.
Proof.
  unfold Lfo.extract_text. intros H.
  destruct (Lfo.item 1 (Lfo.split_str Lfo.text_key body)) as [after | e];
    [| discriminate H].
  rewrite bind_Ok in H. apply item_In in H.
  pose proof (split_parts_quote_free after) as Hall.
  rewrite Forall_forall in Hall. apply Hall. now apply list_elem_of_In.
Qed.

(** The message [say "hi"], sent with its quotes escaped, is read as [say \]. *)
Lemma extract_text_stops_at_quote_witness :
  Lfo.extract_text
    (Lfo.dumps_messages
       ("say " +:+ String Lfo.quote ("hi" +:+ String Lfo.quote EmptyString)))
  = Ok ("say " +:+ String Lfo.backslash EmptyString)
  /\ quote_free ("say " +:+ String Lfo.backslash EmptyString) = true.
Proof.
  split; [reflexivity |].
  exact (extract_text_stops_at_quote
           (Lfo.dumps_messages
              ("say " +:+ String Lfo.quote ("hi" +:+ String Lfo.quote EmptyString)))
           ("say " +:+ String Lfo.backslash EmptyString) eq_refl).
Defined.

(** *** The handler *)

Lemma extract_text_no_key (b : string) :
  no_match_in Lfo.text_key b EmptyString = true ->
  Lfo.extract_text b = Raise (OtherError "IndexError").
Proof.
  intros H. unfold Lfo.extract_text.
  now rewrite (split_str_no_match _ b H).
Qed.

Lemma extract_text_no_quote (pre after : string) :
  no_match_in Lfo.text_key pre (Lfo.text_key +:+ after) = true ->
  quote_free after = true ->
  Lfo.extract_text (pre +:+ Lfo.text_key +:+ after)
  = Raise (OtherError "IndexError").
Proof.
  intros Hpre Hafter. unfold Lfo.extract_text.
  rewrite (split_str_past _ _ _ Hpre).
  unfold Lfo.text_key at 1 2. rewrite split_str_at_sep.
  fold Lfo.text_key. rewrite item_succ.
  rewrite (split_str_no_match _ after (quote_free_no_match after _ Hafter)).
  cbn [Lfo.item nth_error]. rewrite bind_Ok.
  now rewrite (split_char_free after Hafter).
Qed.

(** X7.  What the handler does with a request that carries no chat text, for
    every dialog service: a request without a body raises [AttributeError], a
    body in which the separator does not occur raises [IndexError], and so
    does a body with no double quote after the separator, whatever the
    service would answer. *)
Theorem handler_fails_without_text (L : Lfo.lex_runtime) (ev : Lfo.api_event) :
  (Lfo.body ev = None ->
     Lfo.lambda_handler L ev = Raise (OtherError "AttributeError"))
  /\ (forall b, Lfo.body ev = Some b ->
        no_match_in Lfo.text_key b EmptyString = true ->
        Lfo.lambda_handler L ev = Raise (OtherError "IndexError"))
  /\ (forall pre after,
        Lfo.body ev = Some (pre +:+ Lfo.text_key +:+ after) ->
        no_match_in Lfo.text_key pre (Lfo.text_key +:+ after) = true ->
        quote_free after = true ->
        Lfo.lambda_handler L ev = Raise (OtherError "IndexError")).
Proof.
  unfold Lfo.lambda_handler. split; [| split].
  - intros H. now rewrite H.
  - intros b Hb Hno. now rewrite Hb, bind_Ok, (extract_text_no_key b Hno).
  - intros pre after Hb Hpre Hafter.
    now rewrite Hb, bind_Ok, (extract_text_no_quote pre after Hpre Hafter).
Qed.

Lemma handler_fails_without_text_witness :
  Lfo.lambda_handler (echo_service ∅)
    {| Lfo.body := Some "{}"; Lfo.accountId := "42" |}
  = Raise (OtherError "IndexError")
  /\ Lfo.lambda_handler (echo_service ∅)
       {| Lfo.body := Some ("{" +:+ Lfo.text_key +:+ " 5}");
          Lfo.accountId := "42" |}
     = Raise (OtherError "IndexError").
Proof.
  split.
  - exact (proj1 (proj2 (handler_fails_without_text (echo_service ∅)
                           {| Lfo.body := Some "{}"; Lfo.accountId := "42" |}))
             "{}" eq_refl eq_refl).
  - exact (proj2 (proj2 (handler_fails_without_text (echo_service ∅)
                           {| Lfo.body := Some ("{" +:+ Lfo.text_key +:+ " 5}");
                              Lfo.accountId := "42" |}))
             "{" " 5}" eq_refl eq_refl eq_refl).
Defined.

Lemma printable_app (a b : string) :
  printable (a +:+ b) = printable a && printable b.
Proof.
  induction a as [| c a IH]; [reflexivity |].
  rewrite str_app_cons. cbn [printable]. now rewrite IH, andb_assoc.
Qed.

Lemma escape_char_printable (c : ascii) : printable (Lfo.escape_char c) = true.
Proof. destruct c as [[] [] [] [] [] [] [] []]; reflexivity. Qed.

Lemma escape_printable (s : string) : printable (Lfo.escape s) = true.
Proof.
  induction s as [| c s IH]; [reflexivity |].
  cbn [Lfo.escape]. now rewrite printable_app, escape_char_printable, IH.
Qed.

Lemma dumps_messages_printable (reply : string) :
  printable (Lfo.dumps_messages reply) = true.
Proof.
  unfold Lfo.dumps_messages, Lfo.dumps_str.
  rewrite !printable_app. cbn [printable].
  rewrite !printable_app, !escape_printable. reflexivity.
Qed.

(** X8.  The handler returns a response exactly when the text is read from
    the body, the service answers, and the answer has a [message]; the
    service is asked for the bot [GetDinnerSuggestions] with the alias
    [prod], the account id as the user and the text that was read.  The
    response then has the status 200, the one header that allows every
    origin, and a body that is the JSON of the reply, made of printable ASCII
    characters only.  An exception of the service is raised unchanged, and an
    answer without a [message] raises [KeyError]. *)
Theorem handler_response (L : Lfo.lex_runtime) (ev : Lfo.api_event) :
  (forall resp,
     Lfo.lambda_handler L ev = Ok resp <->
     exists b text answer reply,
       Lfo.body ev = Some b
       /\ Lfo.extract_text b = Ok text
       /\ Lfo.post_text L "GetDinnerSuggestions" "prod" (Lfo.accountId ev) text
          = Ok answer
       /\ answer !! "message" = Some reply
       /\ resp = {| Lfo.statusCode := 200;
                    Lfo.headers := {["Access-Control-Allow-Origin" := "*"]};
                    Lfo.http_body := Lfo.dumps_messages reply |})
  /\ (forall resp, Lfo.lambda_handler L ev = Ok resp ->
        printable (Lfo.http_body resp) = true)
  /\ (forall b text,
        Lfo.body ev = Some b -> Lfo.extract_text b = Ok text ->
        (forall e,
           Lfo.post_text L "GetDinnerSuggestions" "prod" (Lfo.accountId ev) text
           = Raise e ->
           Lfo.lambda_handler L ev = Raise e)
        /\ (forall answer,
              Lfo.post_text L "GetDinnerSuggestions" "prod" (Lfo.accountId ev) text
              = Ok answer ->
              answer !! "message" = None ->
              Lfo.lambda_handler L ev = Raise (KeyError "message"))).
Proof.
  assert (Hinv : forall resp,
            Lfo.lambda_handler L ev = Ok resp ->
            exists b text answer reply,
              Lfo.body ev = Some b
              /\ Lfo.extract_text b = Ok text
              /\ Lfo.post_text L "GetDinnerSuggestions" "prod"
                   (Lfo.accountId ev) text = Ok answer
              /\ answer !! "message" = Some reply
              /\ resp = {| Lfo.statusCode := 200;
                           Lfo.headers := {["Access-Control-Allow-Origin" := "*"]};
                           Lfo.http_body := Lfo.dumps_messages reply |}).
  { unfold Lfo.lambda_handler, getitem. intros resp H.
    destruct (Lfo.body ev) as [b |] eqn:Hb; [| discriminate H].
    rewrite bind_Ok in H.
    destruct (Lfo.extract_text b) as [text | e] eqn:Ht; [| discriminate H].
    rewrite bind_Ok in H.
    destruct (Lfo.post_text L "GetDinnerSuggestions" "prod" (Lfo.accountId ev) text)
      as [answer | e] eqn:Hp; [| discriminate H].
    rewrite bind_Ok in H.
    destruct (answer !! "message") as [reply |] eqn:Hr; [| discriminate H].
    rewrite bind_Ok in H. injection H as <-.
    exists b, text, answer, reply. repeat split; assumption. }
  split; [| split].
  - intros resp. split; [apply Hinv |].
    intros (b & text & answer & reply & Hb & Ht & Hp & Hr & ->).
    unfold Lfo.lambda_handler, getitem.
    now rewrite Hb, bind_Ok, Ht, bind_Ok, Hp, bind_Ok, Hr.
  - intros resp H.
    destruct (Hinv resp H) as (b & text & answer & reply & _ & _ & _ & _ & ->).
    apply dumps_messages_printable.
  - intros b text Hb Ht. split.
    + intros e He. unfold Lfo.lambda_handler.
      now rewrite Hb, bind_Ok, Ht, bind_Ok, He.
    + intros answer Hp Hr. unfold Lfo.lambda_handler, getitem.
      now rewrite Hb, bind_Ok, Ht, bind_Ok, Hp, bind_Ok, Hr.
Qed.

Lemma handler_response_witness :
  Lfo.lambda_handler (echo_service {["message" := "What cuisine?"]})
    {| Lfo.body := Some (Lfo.dumps_messages "hello"); Lfo.accountId := "42" |}
  = Ok {| Lfo.statusCode := 200;
          Lfo.headers := {["Access-Control-Allow-Origin" := "*"]};
          Lfo.http_body := Lfo.dumps_messages "What cuisine?" |}
  /\ Lfo.lambda_handler (echo_service ∅)
       {| Lfo.body := Some (Lfo.dumps_messages "hello"); Lfo.accountId := "42" |}
     = Raise (KeyError "message").
Proof.
  split.
  - apply (proj1 (handler_response
                    (echo_service {["message" := "What cuisine?"]})
                    {| Lfo.body := Some (Lfo.dumps_messages "hello");
                       Lfo.accountId := "42" |})).
    exists (Lfo.dumps_messages "hello"), "hello",
      ({["message" := "What cuisine?"]} : gmap string string), "What cuisine?".
    repeat split; reflexivity.
  - exact (proj2 (proj2 (proj2 (handler_response (echo_service ∅)
                                  {| Lfo.body := Some (Lfo.dumps_messages "hello");
                                     Lfo.accountId := "42" |}))
                    (Lfo.dumps_messages "hello") "hello" eq_refl eq_refl)
             ∅ eq_refl eq_refl).
Defined.

(** *** What the handler writes can be read back *)

Lemma quote_free_app (a b : string) :
  quote_free (a +:+ b) = quote_free a && quote_free b.
Proof.
  induction a as [| c a IH]; [reflexivity |].
  rewrite str_app_cons. cbn [quote_free]. now rewrite IH, andb_assoc.
Qed.

Lemma escape_char_quote_free (c : ascii) :
  negb (Ascii.eqb c Lfo.quote) = true ->
  quote_free (Lfo.escape_char c) = true.
Proof.
  destruct c as [[] [] [] [] [] [] [] []];
    intros H; try reflexivity; discriminate H.
Qed.

Lemma escape_quote_free (s : string) :
  quote_free s = true -> quote_free (Lfo.escape s) = true.
Proof.
  induction s as [| c s IH]; [reflexivity |].
  cbn [quote_free Lfo.escape]. intros H.
  apply andb_true_iff in H as [Hc Hs].
  now rewrite quote_free_app, (escape_char_quote_free c Hc), (IH Hs).
Qed.

Lemma escape_char_plain (c : ascii) :
  in_range 32 126 c = true ->
  negb (Ascii.eqb c Lfo.quote) = true ->
  negb (Ascii.eqb c Lfo.backslash) = true ->
  Lfo.escape_char c = String c EmptyString.
Proof.
  destruct c as [[] [] [] [] [] [] [] []];
    intros H1 H2 H3; try reflexivity;
    first [discriminate H1 | discriminate H2 | discriminate H3].
Qed.

Lemma escape_plain (s : string) :
  printable s = true -> quote_free s = true -> backslash_free s = true ->
  Lfo.escape s = s.
Proof.
  induction s as [| c s IH]; [reflexivity |].
  cbn [printable quote_free backslash_free Lfo.escape]. intros Hp Hq Hb.
  apply andb_true_iff in Hp as [Hpc Hps].
  apply andb_true_iff in Hq as [Hqc Hqs].
  apply andb_true_iff in Hb as [Hbc Hbs].
  now rewrite (escape_char_plain c Hpc Hqc Hbc), (IH Hps Hqs Hbs).
Qed.

(** The closing quote of the body is followed by a brace, so the separator
    does not start at the opening quote, whatever the text is. *)
Lemma closing_not_key (x : string) :
  quote_free x = true ->
  Lfo.starts_with Lfo.text_key
    (String Lfo.quote (x +:+ String Lfo.quote "}}]}")) = false.
Proof.
  intros H. unfold Lfo.text_key.
  destruct x as [| c1 [| c2 [| c3 [| c4 [| c5 x]]]]];
    rewrite ?str_app_cons, ?str_app_nil_l;
    cbn [Lfo.starts_with String.append];
    try (cbn; rewrite ?andb_false_r; reflexivity).
  cbn [quote_free] in H.
  repeat (apply andb_true_iff in H as [? H]).
  match goal with
  | Hq : negb (Ascii.eqb c5 Lfo.quote) = true |- _ =>
      apply negb_true_iff in Hq; rewrite Ascii.eqb_sym in Hq; rewrite Hq
  end.
  cbn. now rewrite ?andb_false_r.
Qed.

Lemma dumps_messages_shape (m : string) :
  Lfo.dumps_messages m =
    ("{" +:+ Lfo.dumps_str "messages" +:+ ": [{" +:+ Lfo.dumps_str "type"
     +:+ ": " +:+ Lfo.dumps_str "unstructured" +:+ ", "
     +:+ Lfo.dumps_str "unstructured" +:+ ": {")
    +:+ Lfo.text_key +:+ " "
    +:+ String Lfo.quote (Lfo.escape m +:+ String Lfo.quote "}}]}").
Proof.
  unfold Lfo.dumps_messages.
  replace (Lfo.dumps_str m +:+ "}}]}")
    with (String Lfo.quote (Lfo.escape m +:+ String Lfo.quote "}}]}")).
  - reflexivity.
  - unfold Lfo.dumps_str. now rewrite str_app_cons, str_app_assoc.
Qed.

(** X9.  The body that the handler writes is a body that it reads: from the
    JSON of a reply without a double quote, [extract_text] returns the reply
    as it was escaped, which is the reply itself when it is made of printable
    ASCII characters without a backslash. *)
Theorem written_body_reads_back (m : string) :
  quote_free m = true ->
  Lfo.extract_text (Lfo.dumps_messages m) = Ok (Lfo.escape m)
  /\ (printable m = true -> backslash_free m = true ->
      Lfo.extract_text (Lfo.dumps_messages m) = Ok m).
Proof.
  intros Hq.
  assert (H : Lfo.extract_text (Lfo.dumps_messages m) = Ok (Lfo.escape m)).
  { rewrite dumps_messages_shape.
    apply (read_quoted _ " " (Lfo.escape m) "}}]}").
    - reflexivity.
    - reflexivity.
    - exact (escape_quote_free m Hq).
    - exact (closing_not_key _ (escape_quote_free m Hq)). }
  split; [exact H |].
  intros Hp Hb. now rewrite H, (escape_plain m Hp Hq Hb).
Qed.

Lemma written_body_reads_back_witness :
  Lfo.extract_text (Lfo.dumps_messages "What cuisine would you like?")
  = Ok "What cuisine would you like?".
Proof.
  exact (proj2 (written_body_reads_back "What cuisine would you like?" eq_refl)
           eq_refl eq_refl).
Defined.

(** ** Further properties of [lf1.py] *)

(** *** The verdicts *)

(** X10.  The verdicts that the validators return: a valid verdict names no
    slot and has no message; a verdict that is not valid names one of the
    three slots that the validator checks, its message is plain text, and
    only the verdict of a time slot can come without a message. *)
Theorem verdict_invariant (E : host) (v : validation_result) :
  (forall f d t, validate_order_flowers E f d t = Ok v ->
     (isValid v = true /\ v = valid_verdict)
     \/ (isValid v = false
         /\ exists slot, violatedSlot v = Some slot
            /\ In slot ["FlowerType"; "PickupDate"; "PickupTime"]
            /\ (vr_message v = None -> slot = "PickupTime")
            /\ forall m, vr_message v = Some m -> contentType m = "PlainText"))
  /\ (forall c l t, validate_make_suggestions c l t = Ok v ->
        (isValid v = true /\ v = valid_verdict)
        \/ (isValid v = false
            /\ exists slot, violatedSlot v = Some slot
               /\ In slot ["Cuisine"; "Location"; "DiningTime"]
               /\ (vr_message v = None -> slot = "DiningTime")
               /\ forall m, vr_message v = Some m -> contentType m = "PlainText")).
Proof.
  split.
  - intros f d t. unfold validate_order_flowers, isvalid_date, bind.
    destruct f as [f |], d as [d |], t as [t |]; simpl; split_cases;
      intros [= <-];
      first [ left; split; reflexivity
            | right; split; [reflexivity |]; eexists; split; [reflexivity |];
              simpl; repeat split; first [tauto | discriminate | intros m [= <-]; reflexivity] ].
  - intros c l t. unfold validate_make_suggestions, bind.
    destruct c as [c |], l as [l |], t as [t |]; simpl; split_cases;
      intros [= <-];
      first [ left; split; reflexivity
            | right; split; [reflexivity |]; eexists; split; [reflexivity |];
              simpl; repeat split; first [tauto | discriminate | intros m [= <-]; reflexivity] ].
Qed.

Lemma verdict_invariant_witness :
  (isValid pickup_hours_verdict = true /\ pickup_hours_verdict = valid_verdict)
  \/ (isValid pickup_hours_verdict = false
      /\ exists slot, violatedSlot pickup_hours_verdict = Some slot
         /\ In slot ["FlowerType"; "PickupDate"; "PickupTime"]
         /\ (vr_message pickup_hours_verdict = None -> slot = "PickupTime")
         /\ forall m, vr_message pickup_hours_verdict = Some m ->
                      contentType m = "PlainText").
Proof.
  exact (proj1 (verdict_invariant sample_host pickup_hours_verdict)
           None None (Some "09:00") eq_refl).
Defined.

(** *** The entry point *)

(** X11.  [lambda_handler] never changes a response: what it returns is what
    [dispatch] returned, and what [dispatch] raises it raises.  An
    [ElicitSlot] or a [Delegate] goes through, and so does a [Close] with one
    of the two fixed texts; no other [Close] is ever returned. *)
Theorem lambda_handler_passes_through (E : host) (r : intent_request) :
  (forall resp, lambda_handler E r = Ok resp ->
     dispatch E r = Ok resp
     /\ forall state m, dialogAction resp = Close state m ->
                        fixed_text (content m))
  /\ (forall e, dispatch E r = Raise e -> lambda_handler E r = Raise e)
  /\ (forall resp, dispatch E r = Ok resp ->
        (forall state m, dialogAction resp = Close state m ->
                         fixed_text (content m)) ->
        lambda_handler E r = Ok resp).
Proof.
  unfold lambda_handler, fixed_text. split; [| split].
  - intros resp H.
    destruct (dispatch E r) as [temp | e]; [| discriminate H].
    rewrite bind_Ok in H.
    destruct (dialogAction temp) as [name slots slot msg | state m | slots] eqn:Ha.
    + injection H as <-. split; [reflexivity |]. intros state m Hc. congruence.
    + cbv zeta in H.
      destruct (String.eqb_spec (content m) "Hey there, how can I help you?")
        as [Hg | Hg];
        destruct (String.eqb_spec (content m) "Thanks for coming!") as [Ht | Ht];
        simpl in H; try discriminate H;
        injection H as <-; (split; [reflexivity |]);
        intros state' m' Hc; rewrite Ha in Hc; injection Hc as <- <-; tauto.
    + injection H as <-. split; [reflexivity |]. intros state m Hc. congruence.
  - intros e He. now rewrite He.
  - intros resp Hd Hfixed. rewrite Hd, bind_Ok.
    destruct (dialogAction resp) as [name slots slot msg | state m | slots];
      try reflexivity.
    cbv zeta. destruct (Hfixed state m eq_refl) as [-> | ->]; reflexivity.
Qed.

(** The re-prompt for an unknown flower goes through unchanged. *)
Lemma lambda_handler_passes_through_witness :
  lambda_handler sample_host
    (request "DialogCodeHook" "OrderFlowers"
       (flower_slots (Some "weeds") None None))
  = dispatch sample_host
      (request "DialogCodeHook" "OrderFlowers"
         (flower_slots (Some "weeds") None None)).
Proof.
  refine (proj2 (proj2 (lambda_handler_passes_through sample_host
            (request "DialogCodeHook" "OrderFlowers"
               (flower_slots (Some "weeds") None None))))
            _ eq_refl _).
  intros state m H. discriminate H.
Defined.

(** *** Slot keys *)

(** X12.  Both handlers read all their slots before anything else, on a
    dialog turn and on a fulfillment turn alike: when the slot mapping lacks
    one of the keys, the handler raises [KeyError] for the first key that is
    missing in the reading order.  [make_suggestions] reads [NumPeople] and
    [PhoneNumber] too, although it validates neither. *)
Theorem missing_slot_key_raises (E : host) (r : intent_request) (k : string) :
  (first_missing ["FlowerType"; "PickupDate"; "PickupTime"] (get_slots r)
   = Some k ->
   order_flowers E r = Raise (KeyError k))
  /\ (first_missing
        ["Cuisine"; "Location"; "DiningTime"; "NumPeople"; "PhoneNumber"]
        (get_slots r) = Some k ->
      make_suggestions r = Raise (KeyError k)).
Proof.
  unfold order_flowers, make_suggestions, getitem. cbn [first_missing].
  split; intros H;
    repeat match type of H with
    | match ?d !! ?key with _ => _ end = _ =>
        destruct (d !! key) eqn:?; [rewrite bind_Ok |]
    end;
    first [discriminate H | injection H as <-; reflexivity].
Qed.

Lemma missing_slot_key_raises_witness :
  make_suggestions
    (request "DialogCodeHook" "MakeDiningSuggestions"
       (<["Cuisine" := Some "thai"]>
          (<["Location" := None]> (<["DiningTime" := None]> ∅))))
  = Raise (KeyError "NumPeople").
Proof.
  exact (proj2 (missing_slot_key_raises sample_host
                  (request "DialogCodeHook" "MakeDiningSuggestions"
                     (<["Cuisine" := Some "thai"]>
                        (<["Location" := None]> (<["DiningTime" := None]> ∅))))
                  "NumPeople")
           eq_refl).
Defined.

(** *** Valid dialog turns *)

Lemma lower_length (s : string) : String.length (lower s) = String.length s.
Proof. induction s as [| c s IH]; simpl; [reflexivity | now rewrite IH]. Qed.

Lemma valid_verdict_flower_allowed (E : host) (f : string)
    (d t : option string) (v : validation_result) :
  validate_order_flowers E (Some f) d t = Ok v -> isValid v = true ->
  flower_ok f.
Proof.
  rewrite order_flowers_checklist, flower_alone.
  destruct (str_in (lower f) ["lilies"; "roses"; "tulips"]) eqn:Hin.
  - intros _ _. now apply str_in_In.
  - cbn [first_failure build_validation_result isValid].
    intros [= <-]. discriminate.
Qed.

(** X13.  The price that a valid dialog turn of [OrderFlowers] puts in the
    session attributes has two values only: it is 25 when the flower type is
    roses in any case of letters, and 30 for the other two flowers. *)
Theorem price_is_25_or_30 (E : host) (r : intent_request) (f : string)
    (d t : option string) (v : validation_result) :
  invocationSource r = "DialogCodeHook" ->
  has_flower_slots r (Some f) d t ->
  validate_order_flowers E (Some f) d t = Ok v -> isValid v = true ->
  exists price attrs,
    order_flowers E r =
      Ok {| r_sessionAttributes := Some attrs;
            dialogAction := Delegate (get_slots r) |}
    /\ attrs !! "Price" = Some (PInt price)
    /\ (lower f = "roses" -> price = 25)
    /\ (lower f <> "roses" -> price = 30).
Proof.
  intros Hsrc Hs Hv Hvalid.
  exists (Z.of_nat (String.length f) * 5).
  eexists. split; [| split].
  - rewrite (order_flowers_dialog E r (Some f) d t Hs Hsrc), Hv, bind_Ok, Hvalid.
    reflexivity.
  - apply lookup_insert_eq.
  - pose proof (valid_verdict_flower_allowed E f d t v Hv Hvalid) as Hok.
    rewrite <- (lower_length f).
    destruct Hok as [H | [H | [H | []]]]; rewrite <- H; simpl;
      split; intros; first [lia | congruence].
Qed.

Lemma price_is_25_or_30_witness :
  exists price attrs,
    order_flowers sample_host
      (request "DialogCodeHook" "OrderFlowers"
         (flower_slots (Some "Tulips") None None))
    = Ok {| r_sessionAttributes := Some attrs;
            dialogAction := Delegate (flower_slots (Some "Tulips") None None) |}
    /\ attrs !! "Price" = Some (PInt price)
    /\ (lower "Tulips" = "roses" -> price = 25)
    /\ (lower "Tulips" <> "roses" -> price = 30).
Proof.
  exact (price_is_25_or_30 sample_host
           (request "DialogCodeHook" "OrderFlowers"
              (flower_slots (Some "Tulips") None None))
           "Tulips" None None valid_verdict
           eq_refl (flower_slots_has _ _ _ _ _) eq_refl eq_refl).
Defined.

(** X14.  A valid dialog turn that adds nothing: [make_suggestions] returns
    [Delegate] with the slot mapping and the session attributes as they came,
    whatever [NumPeople] and [PhoneNumber] hold, and so does [order_flowers]
    when the flower type is absent.  A request without session attributes
    gets the empty mapping in the response. *)
Theorem valid_turn_delegates_unchanged (E : host) (r : intent_request)
    (v : validation_result) :
  invocationSource r = "DialogCodeHook" -> isValid v = true ->
  (forall c l t n p,
     has_dining_slots r c l t n p ->
     validate_make_suggestions c l t = Ok v ->
     make_suggestions r =
       Ok {| r_sessionAttributes :=
               Some (match sessionAttributes r with
                     | Some attrs => attrs
                     | None => ∅
                     end);
             dialogAction := Delegate (get_slots r) |})
  /\ (forall d t,
        has_flower_slots r None d t ->
        validate_order_flowers E None d t = Ok v ->
        order_flowers E r =
          Ok {| r_sessionAttributes :=
                  Some (match sessionAttributes r with
                        | Some attrs => attrs
                        | None => ∅
                        end);
                dialogAction := Delegate (get_slots r) |}).
Proof.
  intros Hsrc Hvalid. split.
  - intros c l t n p Hs Hv.
    now rewrite (make_suggestions_dialog r c l t n p Hs Hsrc), Hv, bind_Ok,
      Hvalid.
  - intros d t Hs Hv.
    now rewrite (order_flowers_dialog E r None d t Hs Hsrc), Hv, bind_Ok,
      Hvalid.
Qed.

(** A party of minus three and a phone number of two letters are delegated. *)
Lemma valid_turn_delegates_unchanged_witness :
  make_suggestions
    (request "DialogCodeHook" "MakeDiningSuggestions"
       (dining_slots (Some "thai") (Some "manhattan") None (Some "-3")
          (Some "ab")))
  = Ok {| r_sessionAttributes := Some ∅;
          dialogAction :=
            Delegate (dining_slots (Some "thai") (Some "manhattan") None
                        (Some "-3") (Some "ab")) |}.
Proof.
  exact (proj1 (valid_turn_delegates_unchanged sample_host
                  (request "DialogCodeHook" "MakeDiningSuggestions"
                     (dining_slots (Some "thai") (Some "manhattan") None
                        (Some "-3") (Some "ab")))
                  valid_verdict eq_refl eq_refl)
           (Some "thai") (Some "manhattan") None (Some "-3") (Some "ab")
           (dining_slots_has _ _ _ _ _ _ _) eq_refl).
Defined.

(** *** The hour window *)

(** X15.  For a time that reads as an hour and a minute, the other slots
    passing, the verdict depends on the hour alone: valid from 10 to 16 for a
    pickup and from 17 to 20 for a dinner, both ends included, and the
    verdict with the business-hours message for every other hour, a negative
    one included. *)
Theorem hour_window_decides (E : host) (t : string) (hour minute : Z) :
  reads_as_time t hour minute ->
  (forall f d, if_present flower_ok f -> if_present (date_ok E) d ->
     validate_order_flowers E f d (Some t) =
       Ok (if (10 <=? hour) && (hour <=? 16) then valid_verdict
           else pickup_hours_verdict))
  /\ (forall c l, if_present cuisine_ok c -> if_present location_ok l ->
        validate_make_suggestions c l (Some t) =
          Ok (if (17 <=? hour) && (hour <=? 20) then valid_verdict
              else dining_hours_verdict)).
Proof.
  intros Hr. split.
  - intros f d Hf Hd.
    rewrite order_flowers_checklist, (flower_passes E f Hf),
      (date_passes E d Hd), (pickup_time_alone E t hour minute Hr).
    destruct (Z.ltb_spec hour 10), (Z.ltb_spec 16 hour),
      (Z.leb_spec 10 hour), (Z.leb_spec hour 16);
      try lia; reflexivity.
  - intros c l Hc Hl.
    rewrite make_suggestions_checklist, (cuisine_passes c Hc),
      (location_passes l Hl), (dining_time_alone t hour minute Hr).
    destruct (Z.ltb_spec hour 17), (Z.ltb_spec 20 hour),
      (Z.leb_spec 17 hour), (Z.leb_spec hour 20);
      try lia; reflexivity.
Qed.

Lemma hour_window_decides_witness :
  validate_order_flowers sample_host None None (Some "16:59") = Ok valid_verdict
  /\ validate_order_flowers sample_host None None (Some "17:00")
     = Ok pickup_hours_verdict
  /\ validate_make_suggestions None None (Some "-1:30") = Ok dining_hours_verdict.
Proof.
  split; [| split].
  - exact (proj1 (hour_window_decides sample_host "16:59" 16 59
                    (sample_time_reads "1" "6" "5" "9" 16 59
                       eq_refl eq_refl eq_refl eq_refl eq_refl eq_refl))
             None None I I).
  - exact (proj1 (hour_window_decides sample_host "17:00" 17 0
                    (sample_time_reads "1" "7" "0" "0" 17 0
                       eq_refl eq_refl eq_refl eq_refl eq_refl eq_refl))
             None None I I).
  - exact (proj2 (hour_window_decides sample_host "-1:30" (-1) 30
                    (sample_time_reads "-" "1" "3" "0" (-1) 30
                       eq_refl eq_refl eq_refl eq_refl eq_refl eq_refl))
             None None I I).
Defined.

(** *** What the validators raise *)

Lemma first_failure_raise (checks : list (result validation_result)) (e : exn) :
  first_failure checks = Raise e -> In (Raise e) checks.
Proof.
  induction checks as [| c rest IH]; simpl; [discriminate |].
  destruct c as [v | e']; [| intros [= ->]; now left].
  destruct (isValid v); [| discriminate].
  intros H. right. exact (IH H).
Qed.

Lemma strptime_raises_ValueError (s : string) (e : exn) :
  strptime_Ymd s = Raise e -> e = ValueError.
Proof.
  unfold strptime_Ymd.
  destruct (match_Ymd s) as [[[[y m] d] rest] |]; [| now intros [= <-]].
  destruct rest; [| now intros [= <-]].
  destruct (valid_ymd y m d); [discriminate | now intros [= <-]].
Qed.

Lemma pickup_time_raise (E : host) (t : option string) (e : exn) :
  validate_order_flowers E None None t = Raise e ->
  e = ValueError /\ unsplittable_time t.
Proof.
  destruct t as [s |]; [| discriminate].
  unfold validate_order_flowers.
  destruct (Nat.eqb (String.length s) 5) eqn:Hlen; cbn [negb]; [| discriminate].
  apply Nat.eqb_eq in Hlen.
  destruct (split ":" s) as [| h [| m [| x rest]]] eqn:Hsplit.
  - intros [= <-]. split; [reflexivity |].
    exists s. repeat split; [exact Hlen |]. intros h m. now rewrite Hsplit.
  - intros [= <-]. split; [reflexivity |].
    exists s. repeat split; [exact Hlen |]. intros h' m. now rewrite Hsplit.
  - destruct (split_two_short s h m Hlen Hsplit) as [Hh Hm].
    rewrite (isnan_short h Hh), (isnan_short m Hm).
    destruct (int h) eqn:Hih, (int m) eqn:Him; cbn [bind];
      unfold parse_int; rewrite ?Hih;
      try discriminate;
      destruct (num_lt _ 10 || num_gt _ 16); discriminate.
  - intros [= <-]. split; [reflexivity |].
    exists s. repeat split; [exact Hlen |]. intros h' m'. now rewrite Hsplit.
Qed.

Lemma dining_time_raise (t : option string) (e : exn) :
  validate_make_suggestions None None t = Raise e ->
  e = ValueError /\ unsplittable_time t.
Proof.
  destruct t as [s |]; [| discriminate].
  unfold validate_make_suggestions.
  destruct (Nat.eqb (String.length s) 5) eqn:Hlen; cbn [negb]; [| discriminate].
  apply Nat.eqb_eq in Hlen.
  destruct (split ":" s) as [| h [| m [| x rest]]] eqn:Hsplit.
  - intros [= <-]. split; [reflexivity |].
    exists s. repeat split; [exact Hlen |]. intros h m. now rewrite Hsplit.
  - intros [= <-]. split; [reflexivity |].
    exists s. repeat split; [exact Hlen |]. intros h' m. now rewrite Hsplit.
  - destruct (split_two_short s h m Hlen Hsplit) as [Hh Hm].
    rewrite (isnan_short h Hh), (isnan_short m Hm).
    destruct (int h) eqn:Hih, (int m) eqn:Him; cbn [bind];
      unfold parse_int; rewrite ?Hih;
      try discriminate;
      destruct (num_lt _ 17 || num_gt _ 20); discriminate.
  - intros [= <-]. split; [reflexivity |].
    exists s. repeat split; [exact Hlen |]. intros h' m'. now rewrite Hsplit.
Qed.

(** X16.  The only ways in which the validators raise.  The validator of
    [MakeDiningSuggestions] raises nothing but [ValueError], and only for a
    five-character time that does not split in two at the colon; the
    conversion of the hour and the minute to a float never overflows.  The
    validator of [OrderFlowers] raises for such a time, or for a date: what
    the date parser raises when that is not a [ValueError], or the
    [ValueError] of [strptime] on a date that the parser read. *)
Theorem validators_raise_only (E : host) (e : exn) :
  (forall c l t, validate_make_suggestions c l t = Raise e ->
     e = ValueError /\ unsplittable_time t)
  /\ (forall f d t, validate_order_flowers E f d t = Raise e ->
        (e = ValueError /\ unsplittable_time t)
        \/ exists s, d = Some s
             /\ ((dateutil_parse E s = Raise e /\ e <> ValueError)
                 \/ (dateutil_parse E s = Ok tt
                     /\ strptime_Ymd s = Raise ValueError
                     /\ e = ValueError))).
Proof.
  split.
  - intros c l t H. rewrite make_suggestions_checklist in H.
    apply first_failure_raise in H.
    destruct H as [H | [H | [H | []]]].
    + destruct c as [c |]; [rewrite cuisine_alone in H | discriminate H].
      destruct (str_in _ _); discriminate H.
    + destruct l as [l |]; [rewrite location_alone in H | discriminate H].
      destruct (str_in _ _); discriminate H.
    + exact (dining_time_raise t e H).
  - intros f d t H. rewrite order_flowers_checklist in H.
    apply first_failure_raise in H.
    destruct H as [H | [H | [H | []]]].
    + destruct f as [f |]; [rewrite flower_alone in H | discriminate H].
      destruct (str_in _ _); discriminate H.
    + right. destruct d as [s |]; [| discriminate H].
      exists s. split; [reflexivity |]. rewrite date_alone in H.
      destruct (dateutil_parse E s) as [[] | e'] eqn:Hp.
      * right. destruct (strptime_Ymd s) as [when | e''] eqn:Hs.
        -- destruct (date_le when (today E)); discriminate H.
        -- injection H as ->.
           pose proof (strptime_raises_ValueError s e Hs) as ->.
           repeat split; assumption.
      * left. destruct e'; try discriminate H; injection H as <-;
          (split; [reflexivity | discriminate]).
    + left. exact (pickup_time_raise E t e H).
Qed.

Lemma validators_raise_only_witness :
  (ValueError = ValueError /\ unsplittable_time (Some "12345"))
  \/ exists s, (None : option string) = Some s
       /\ ((dateutil_parse sample_host s = Raise ValueError
            /\ ValueError <> ValueError)
           \/ (dateutil_parse sample_host s = Ok tt
               /\ strptime_Ymd s = Raise ValueError
               /\ ValueError = ValueError)).
Proof.
  exact (proj2 (validators_raise_only sample_host ValueError)
           None None (Some "12345") eq_refl).
Defined.
